(** * monotrail-resolve: the sdist metadata build path, the requirement
    fixup and the ordering of a resolution

    A shallow embedding of [resolve_prototype/sdist.py] together with the
    facts of [test/test_resolve.py] that pin down the behaviour of
    [resolve] and [parse_requirement_fixup].

    Python strings are byte strings (UTF-8); dictionaries are [gmap]s; a
    function that performs effects becomes a state transformer over the
    cache and a chronological trace of the effects it performed, returning
    either a value or the exception it raised.  The [async]/[await] and
    [to_thread] plumbing is sequential for a single call and is not
    represented. *)

From Stdlib Require Import ZArith Ascii String List Bool Lia.
From stdpp Require Import base tactics option list strings gmap.

Local Open Scope Z_scope.

(** ** Python values shared by all parts *)

Module Py.

(** The exceptions that can travel through [sdist.py].  [Exception] stands
    for any other subclass of Python's [Exception] raised by a
    collaborator (transport, archive, build front end, parser). *)
#[warnings="-register-all"]
Inductive exn : Type :=
| ValueError
| CalledProcessError (cmd : list string) (returncode : Z)
| RuntimeError (msg : string) (cause : option exn)
| Exception (what : string).

Inductive result (A : Type) : Type :=
| Ok (a : A)
| Raise (e : exn).
Arguments Ok {A} a.
Arguments Raise {A} e.

Definition nl : string := String (ascii_of_nat 10) "".

(** Truthiness of a [str]: the empty string is falsy. *)
Definition str_truthy (s : string) : bool :=
  match s with "" => false | String _ _ => true end.

(** [str.endswith]. *)
Fixpoint startswith (p s : string) : bool :=
  match p, s with
  | "", _ => true
  | String a p', String b s' => if Ascii.eqb a b then startswith p' s' else false
  | String _ _, "" => false
  end.

Definition endswith (s suffix : string) : bool :=
  startswith (String.rev suffix) (String.rev s).

(** ASCII part of [str.isspace]. *)
Definition isspace (a : ascii) : bool :=
  let n := N_of_ascii a in
  ((9 <=? n) && (n <=? 13) || (28 <=? n) && (n <=? 32))%N.

Fixpoint lstrip (s : string) : string :=
  match s with
  | "" => ""
  | String a s' => if isspace a then lstrip s' else s
  end.

(** [str.strip()] with no argument. *)
Definition strip (s : string) : string :=
  String.rev (lstrip (String.rev (lstrip s))).

(** [s] occurs in [t] ([s in t]). *)
Definition includes (t s : string) : Prop :=
  exists pre post : string, t = pre +:+ s +:+ post.

(** [Path.joinpath] for a relative final component. *)
Definition joinpath (dir name : string) : string := dir +:+ "/" +:+ name.

(** [str] of a list of [PosixPath]. *)
Fixpoint commas (l : list string) : string :=
  match l with
  | [] => ""
  | [x] => x
  | x :: l' => x +:+ ", " +:+ commas l'
  end.

Definition str_paths (l : list string) : string :=
  "[" +:+ commas (map (fun p => "PosixPath('" +:+ p +:+ "')") l) +:+ "]".

End Py.
Import Py.

(** ** The cache handle *)

Module Common.

(** Modelled from the spec: [resolve_prototype.common] ([Cache],
    [user_agent]) is not under src/.  The cache is a keyed store over
    (namespace, key) pairs with opaque values; it "supports read-only mode
    (skip writes) and disabled mode (skip both)", which is how the tests
    construct it ([Cache(dir, read=False, write=False)],
    [Cache(dir, read=True, write=False)]). *)
Record Cache : Type := {
  read : bool;
  write : bool;
  entries : gmap (string * string) string
}.

(** Modelled from the spec: [Cache.get], a keyed lookup that is skipped
    when reading is off. *)
Definition cache_get (c : Cache) (bucket name : string) : option string :=
  if read c then entries c !! (bucket, name) else None.

(** Modelled from the spec: [Cache.set], an insert that is skipped when
    writing is off. *)
Definition cache_set (c : Cache) (bucket name content : string) : Cache :=
  if write c
  then {| read := read c; write := write c;
          entries := <[(bucket, name) := content]> (entries c) |}
  else c.

End Common.
Import Common.

(** ** resolve_prototype/sdist.py *)

Module Sdist.

(** [pypi_releases.File], the two attributes [sdist.py] reads. *)
Record File : Type := { filename : string; url : string }.

Abbreviation environ := (gmap string string).

(** [subprocess.CompletedProcess] for [text=True, capture_output=True]. *)
Record CompletedProcess : Type := {
  cp_stdout : string;
  cp_stderr : string;
  cp_returncode : Z
}.

Inductive level : Type := INFO | WARNING | ERROR.

(** The observable effects, in the order they happen. *)
Inductive Event : Type :=
| Log (lvl : level) (msg : string)
| TempdirCreate (dir : string)
| TempdirCleanup (dir : string)
| HttpGet (url : string) (user_agent : string) (dest : string)
| UnpackArchive (archive extract_dir : string)
| Run (cmd : list string) (cwd : option string) (env : environ).

(** What [ProjectBuilder(src_dir, runner=...).metadata_path(metadata_dir)]
    does as far as [sdist.py] can observe: it calls the runner some number
    of times (the runner returns [None], so the continuation cannot depend
    on its result), and then either returns, leaving [entries] in
    [metadata_dir], or raises.  When a runner call raises, the front end
    makes no further call; which exception then comes out of
    [metadata_path] is the front end's business and is a collaborator of
    its own, [ProjectBuilder_reraise], below. *)
Inductive Hooks : Type :=
| HooksReturn (entries : list string)
| HooksRaise (e : exn)
| HooksCall (cmd : list string) (cwd : option string)
            (extra_environ : option environ) (k : Hooks).

(** Everything outside the module that it calls.
    [ProjectBuilder_reraise e] is what [metadata_path] raises when a call
    of the runner raised [e]: [e] itself for a front end that does not
    handle it, another exception for one that wraps it (pypa/build's
    [ProjectBuilder] re-raises the errors of a hook call as its own
    [BuildBackendException]). *)
Record World (Json Metadata : Type) : Type := {
  user_agent : string;
  os_environ : environ;
  mkdtemp : string;
  stream_get : File -> option exn;
  unpack_archive : File -> result (list string);
  ProjectBuilder_metadata_path : string -> string -> Hooks;
  ProjectBuilder_reraise : exn -> exn;
  run : list string -> option string -> environ -> CompletedProcess;
  str_exn : exn -> string;
  Distribution_metadata_json : string -> result Json;
  json_dumps : Json -> string;
  parse_metadata : string -> result Metadata;
  str_requires_dist : Metadata -> string
}.
Arguments user_agent {Json Metadata} _.
Arguments os_environ {Json Metadata} _.
Arguments mkdtemp {Json Metadata} _.
Arguments stream_get {Json Metadata} _ _.
Arguments unpack_archive {Json Metadata} _ _.
Arguments ProjectBuilder_metadata_path {Json Metadata} _ _ _.
Arguments ProjectBuilder_reraise {Json Metadata} _ _.
Arguments run {Json Metadata} _ _ _ _.
Arguments str_exn {Json Metadata} _ _.
Arguments Distribution_metadata_json {Json Metadata} _ _.
Arguments json_dumps {Json Metadata} _ _.
Arguments parse_metadata {Json Metadata} _ _.
Arguments str_requires_dist {Json Metadata} _ _.

(** *** The effect monad: cache and trace, value or exception *)

Record St : Type := { cache : Cache; trace : list Event }.

Definition M (A : Type) : Type := St -> result A * St.

#[export] Instance M_ret : MRet M := fun A (a : A) s => (Ok a, s).

#[export] Instance M_bind : MBind M := fun A B (k : A -> M B) (m : M A) s =>
  match m s with
  | (Ok a, s') => k a s'
  | (Raise e, s') => (Raise e, s')
  end.

Definition raise {A : Type} (e : exn) : M A := fun s => (Raise e, s).

Definition lift {A : Type} (r : result A) : M A := fun s => (r, s).

Definition emit (ev : Event) : M unit :=
  fun s => (Ok tt, {| cache := cache s; trace := trace s ++ [ev] |}).

Definition emits (evs : list Event) : M unit :=
  fun s => (Ok tt, {| cache := cache s; trace := trace s ++ evs |}).

Definition log (lvl : level) (msg : string) : M unit := emit (Log lvl msg).

(** [try: m finally: f], for a cleanup [f] that does not raise. *)
Definition try_finally {A : Type} (m : M A) (f : M unit) : M A :=
  fun s => let '(r, s') := m s in (r, snd (f s')).

(** [with TemporaryDirectory() as tempdir: body]. *)
Definition with_TemporaryDirectory {A : Type} (dir : string)
    (body : string -> M A) : M A :=
  emit (TempdirCreate dir);;
  try_finally (body dir) (emit (TempdirCleanup dir)).

Definition get (bucket name : string) : M (option string) :=
  fun s => (Ok (cache_get (cache s) bucket name), s).

Definition set (bucket name content : string) : M unit :=
  fun s => (Ok tt, {| cache := cache_set (cache s) bucket name content;
                      trace := trace s |}).

(** *** ProjectHooksCaptureOutput *)

Record Capture : Type := { stdout : string; stderr : string }.

(** A fresh instance reads the class attributes [stdout = ""],
    [stderr = ""]. *)
Definition ProjectHooksCaptureOutput : Capture :=
  {| stdout := ""; stderr := "" |}.

(** Truthiness of a [dict]. *)
Definition dict_truthy (d : environ) : bool := negb (bool_decide (d = ∅)).

(** [CompletedProcess.check_returncode]. *)
Definition check_returncode (cmd : list string) (p : CompletedProcess)
    : result unit :=
  if (cp_returncode p =? 0)%Z then Ok tt
  else Raise (CalledProcessError cmd (cp_returncode p)).

Section WithWorld.
Context {Json Metadata : Type}.
Variable W : World Json Metadata.

(** The [env] built by the first three lines of [subprocess_runner]:
    [dict.update] lets the entries of [extra_environ] win. *)
Definition runner_env (extra_environ : option environ) : environ :=
  let env := os_environ W in
  match extra_environ with
  | Some extra => if dict_truthy extra then extra ∪ env else env
  | None => env
  end.

(** [ProjectHooksCaptureOutput.subprocess_runner]: the outcome, the
    instance after the call and the subprocess it launched (always with
    [text=True, capture_output=True]).  The two [+=] happen before
    [check_returncode], so the output of a failing process is kept. *)
Definition subprocess_runner (self : Capture) (cmd : list string)
    (cwd : option string) (extra_environ : option environ)
    : result unit * Capture * Event :=
  let env := runner_env extra_environ in
  let result := run W cmd cwd env in
  let self' := {| stdout := stdout self +:+ cp_stdout result;
                  stderr := stderr self +:+ cp_stderr result |} in
  (check_returncode cmd result, self', Run cmd cwd env).

(** Running the build front end with [runner=capture.subprocess_runner]. *)
Fixpoint metadata_path (h : Hooks) (self : Capture)
    : result (list string) * Capture * list Event :=
  match h with
  | HooksReturn listing => (Ok listing, self, [])
  | HooksRaise e => (Raise e, self, [])
  | HooksCall cmd cwd extra_environ k =>
      let '(r, self', ev) := subprocess_runner self cmd cwd extra_environ in
      match r with
      | Ok _ =>
          let '(r', self'', evs) := metadata_path k self' in
          (r', self'', ev :: evs)
      | Raise e => (Raise (ProjectBuilder_reraise W e), self', [ev])
      end
  end.

Definition failed_to_build (file : File) (e : exn) (capture : Capture)
    : string :=
  "Failed to build metadata for " +:+ filename file +:+ ": "
    +:+ str_exn W e +:+ nl
    +:+ "--- Stdout:" +:+ nl +:+ stdout capture +:+ nl
    +:+ "--- Stderr:" +:+ nl +:+ stderr capture +:+ nl
    +:+ "---" +:+ nl.

Definition messages_from_building (file : File) (capture : Capture)
    : string :=
  "Messages from building " +:+ filename file +:+ ":" +:+ nl
    +:+ "--- stderr:" +:+ nl +:+ strip (stderr capture) +:+ nl
    +:+ "---" +:+ nl.

Definition is_dist_info (name : string) : bool := endswith name ".dist-info".

Definition build_sdist_impl (file : File) (tempdir : string) : M Json :=
  log INFO ("Downloading " +:+ filename file);;
  let downloaded_file := joinpath tempdir (filename file) in
  emit (HttpGet (url file) (user_agent W) downloaded_file);;
  match stream_get W file with Some e => raise e | None => mret tt end;;
  log INFO ("Extracting " +:+ filename file);;
  let extracted := joinpath tempdir "extracted" in
  emit (UnpackArchive downloaded_file extracted);;
  top ← lift (unpack_archive W file);
  src_dir ← match top with
            | [d] => mret (joinpath extracted d)
            | _ =>
                log ERROR (str_paths (map (joinpath extracted) top));;
                raise ValueError
            end;
  log INFO ("Building " +:+ filename file);;
  let metadata_dir := joinpath tempdir "metadata" in
  let '(r, capture, evs) :=
    metadata_path (ProjectBuilder_metadata_path W src_dir metadata_dir)
                  ProjectHooksCaptureOutput in
  emits evs;;
  listing ← match r with
            | Ok listing => mret listing
            | Raise (CalledProcessError cmd rc) =>
                raise (RuntimeError
                         (failed_to_build file (CalledProcessError cmd rc)
                                          capture) None)
            | Raise e => raise e
            end;
  (if str_truthy (stderr capture)
   then log WARNING (messages_from_building file capture)
   else mret tt);;
  log INFO ("Finished " +:+ filename file);;
  match List.filter is_dist_info listing with
  | [dist_info] =>
      lift (Distribution_metadata_json W (joinpath metadata_dir dist_info))
  | _ => raise ValueError
  end.

Definition cache_key (file : File) : string :=
  filename file +:+ ".METADATA.json".

Definition failed_to_parse (file : File) : string :=
  "Failed to parse sdist built metadata for " +:+ filename file
    +:+ ", this is most likely a bug".

(** The [else] branch of [build_sdist]: build, store, and hand on the
    serialised record ([json.dumps] is called twice on the same value). *)
Definition build_and_store (file : File) : M string :=
  json_metadata ← with_TemporaryDirectory (mkdtemp W) (build_sdist_impl file);
  set "sdist_build_metadata" (cache_key file) (json_dumps W json_metadata);;
  mret (json_dumps W json_metadata).

Definition build_sdist (file : File) : M Metadata :=
  cached ← get "sdist_build_metadata" (cache_key file);
  metadata ← match cached with
             | Some v =>
                 if str_truthy v
                 then log INFO ("Using cached json metadata for "
                                  +:+ filename file);;
                      mret v
                 else build_and_store file
             | None => build_and_store file
             end;
  match parse_metadata W metadata with
  | Ok parsed =>
      log INFO ("sdist " +:+ filename file +:+ " "
                  +:+ str_requires_dist W parsed);;
      mret parsed
  | Raise e => raise (RuntimeError (failed_to_parse file) (Some e))
  end.

End WithWorld.

(** *** Observations on a trace *)

Definition is_http_get (ev : Event) : bool :=
  match ev with HttpGet _ _ _ => true | _ => false end.

Definition is_unpack (ev : Event) : bool :=
  match ev with UnpackArchive _ _ => true | _ => false end.

Definition is_run (ev : Event) : bool :=
  match ev with Run _ _ _ => true | _ => false end.

(** [build_sdist_impl] opens exactly one download per invocation, so the
    downloads on a trace count the runs of the build driver. *)
Definition driver_runs (t : list Event) : nat :=
  length (List.filter is_http_get t).

(** The runner calls a build front end makes if none of them fails. *)
Record Call : Type := {
  call_cmd : list string;
  call_cwd : option string;
  call_extra_environ : option environ
}.

Fixpoint calls (h : Hooks) : list Call :=
  match h with
  | HooksReturn _ | HooksRaise _ => []
  | HooksCall cmd cwd extra_environ k =>
      {| call_cmd := cmd; call_cwd := cwd;
         call_extra_environ := extra_environ |} :: calls k
  end.

(** The value bound by [if metadata := cache.get(...)] when the branch is
    taken: an entry that is readable and truthy. *)
Definition cache_hit (c : Cache) (file : File) : option string :=
  match cache_get c "sdist_build_metadata" (cache_key file) with
  | Some v => if str_truthy v then Some v else None
  | None => None
  end.

Section Observations.
Context {Json Metadata : Type}.
Variable W : World Json Metadata.

(** The subprocess a runner call launches and what comes back from it. *)
Definition launch (c : Call) : Event :=
  Run (call_cmd c) (call_cwd c) (runner_env W (call_extra_environ c)).

Definition outcome (c : Call) : CompletedProcess :=
  run W (call_cmd c) (call_cwd c) (runner_env W (call_extra_environ c)).

Definition succeeds (c : Call) : bool := (cp_returncode (outcome c) =? 0)%Z.

(** The calls actually made: up to and including the first that fails. *)
Fixpoint launched (cs : list Call) : list Call :=
  match cs with
  | [] => []
  | c :: cs' => if succeeds c then c :: launched cs' else [c]
  end.

Fixpoint captured (field : CompletedProcess -> string) (cs : list Call)
    : string :=
  match cs with
  | [] => ""
  | c :: cs' => field (outcome c) +:+ captured field cs'
  end.

End Observations.

End Sdist.

(** ** resolve_prototype/resolve.py, as far as the tests pin it down *)

Module Resolve.

Definition is_digit (a : ascii) : bool :=
  let n := N_of_ascii a in ((48 <=? n) && (n <=? 57))%N.

(** First character of a version comparator
    ([<], [<=], [>], [>=], [==], [===], [!=], [~=]). *)
Definition is_comparator_start (a : ascii) : bool :=
  match a with
  | "<"%char | ">"%char | "="%char | "!"%char | "~"%char => true
  | _ => false
  end.

(** The characters of a version: letters, digits, [.], [*], [+], [-] and
    [_]. *)
Definition is_version_char (a : ascii) : bool :=
  let n := N_of_ascii a in
  ((48 <=? n) && (n <=? 57) || (65 <=? n) && (n <=? 90)
   || (97 <=? n) && (n <=? 122))%N
  || match a with
     | "."%char | "*"%char | "+"%char | "-"%char | "_"%char => true
     | _ => false
     end.

Definition is_blank (a : ascii) : bool :=
  match a with
  | " "%char | "009"%char => true
  | _ => false
  end.

(** Does the text begin with a comparator: [<], [>], [<=], [>=], [==],
    [===], [!=] or [~=]? *)
Definition starts_comparator (s : string) : bool :=
  match s with
  | String a rest =>
      match a with
      | "<"%char | ">"%char => true
      | "="%char | "!"%char | "~"%char =>
          match rest with
          | String "="%char _ => true
          | _ => false
          end
      | _ => false
      end
  | "" => false
  end.

(** A bound token is a comparator followed by the text of a version.  The
    scan is inside one from the comparator on, through version characters
    and blanks, until any other character (a comma, a bracket, a quote, a
    semicolon) ends it. *)
Definition in_bound_after (in_bound : bool) (a : ascii) : bool :=
  if is_comparator_start a then true
  else if is_version_char a || is_blank a then in_bound
  else false.

(** Modelled from the spec: [resolve_prototype/resolve.py] is not under
    src/.  The one repair of the requirement fixup: "insert a comma between
    adjacent bound tokens where a comparator follows a numeric release
    segment without separator".  A comma goes after a digit inside a bound
    token when a comparator follows it immediately; a digit outside a
    bound token (the end of a name such as [Jinja2]) gets none.
    [in_bound] tells whether the scan is inside a bound token. *)
Fixpoint repair_bounds (in_bound : bool) (s : string) : string :=
  match s with
  | "" => ""
  | String a s' =>
      if in_bound && is_digit a && starts_comparator s'
      then String a (String ","%char (repair_bounds false s'))
      else String a (repair_bounds (in_bound_after in_bound a) s')
  end.

(** Modelled from the spec: the repair applied to a whole requirement
    string, which does not start inside a bound token. *)
Definition add_missing_comma (s : string) : string := repair_bounds false s.

(** Every character of the text satisfies the test. *)
Fixpoint every (p : ascii -> bool) (s : string) : bool :=
  match s with
  | "" => true
  | String a s' => p a && every p s'
  end.

(** Some digit of the text is followed immediately by a comparator. *)
Fixpoint digit_before_comparator (s : string) : bool :=
  match s with
  | "" => false
  | String a s' =>
      is_digit a && starts_comparator s' || digit_before_comparator s'
  end.

(** The warning of [test_parse_requirement_fixup]:
    "Requirement `<raw>` for <context> is invalid (missing comma)". *)
Definition missing_comma_warning (requirement debug_source : string)
    : string :=
  "Requirement `" +:+ requirement +:+ "` for " +:+ debug_source
    +:+ " is invalid (missing comma)".

Section Fixup.
Context {Requirement Pep508Error : Type}.

(** The strict parser of requirement strings, an external collaborator
    ([pep508_rs.Requirement]). *)
Variable parse : string -> Requirement + Pep508Error.

(** Modelled from the spec: [parse_requirement_fixup] of
    [resolve_prototype/resolve.py], which is not under src/: it "tries
    strict parsing, and on failure applies one repair [...]. If the repaired
    string parses, emit a warning that names the original string and the
    context; otherwise surface the original parse error. No other repairs
    are attempted."  The second component lists the warnings logged. *)
Definition parse_requirement_fixup (requirement debug_source : string)
    : (Requirement + Pep508Error) * list string :=
  match parse requirement with
  | inl parsed => (inl parsed, [])
  | inr err =>
      match parse (add_missing_comma requirement) with
      | inl parsed =>
          (inl parsed, [missing_comma_warning requirement debug_source])
      | inr _ => (inr err, [])
      end
  end.

(** The spelling the fixup parsed: the string itself, or the repaired
    string when only that one parses. *)
Definition accepted_spelling (requirement : string) : string :=
  match parse requirement with
  | inl _ => requirement
  | inr _ =>
      match parse (add_missing_comma requirement) with
      | inl _ => add_missing_comma requirement
      | inr _ => requirement
      end
  end.

End Fixup.

(** *** Package names and the order of a resolution *)


Definition is_separator (a : ascii) : bool :=
  match a with
  | "-"%char | "_"%char | "."%char => true
  | _ => false
  end.









End Resolve.

(** ** A reference instance of the strict requirement parser

    [pep508_rs.Requirement] is an external collaborator; the statements
    about the fixup quantify over it.  This instance covers the
    requirements of the form [name], [name (clauses)] and [name clauses]
    with comma-separated version clauses, and is what the closed examples
    run on. *)

Module Pep508.

Record Requirement : Type := {
  name : string;
  version_or_url : list (string * string)
}.

Definition is_alnum (a : ascii) : bool :=
  let n := N_of_ascii a in
  ((48 <=? n) && (n <=? 57) || (65 <=? n) && (n <=? 90)
   || (97 <=? n) && (n <=? 122))%N.

Definition is_name_char (a : ascii) : bool :=
  is_alnum a || Resolve.is_separator a.

Definition is_version_char (a : ascii) : bool :=
  is_alnum a || Resolve.is_separator a
  || Ascii.eqb a "*"%char || Ascii.eqb a "+"%char.

Fixpoint span (p : ascii -> bool) (s : string) : string * string :=
  match s with
  | "" => ("", "")
  | String a s' =>
      if p a then let '(h, t) := span p s' in (String a h, t) else ("", s)
  end.

Fixpoint all_chars (p : ascii -> bool) (s : string) : bool :=
  match s with
  | "" => true
  | String a s' => p a && all_chars p s'
  end.

Fixpoint split_on (sep : ascii) (s : string) : list string :=
  match s with
  | "" => [""]
  | String a s' =>
      if Ascii.eqb a sep then "" :: split_on sep s'
      else match split_on sep s' with
           | x :: r => String a x :: r
           | [] => [String a ""]
           end
  end.

Fixpoint strip_prefix (p s : string) : option string :=
  match p, s with
  | "", _ => Some s
  | String a p', String b s' =>
      if Ascii.eqb a b then strip_prefix p' s' else None
  | String _ _, "" => None
  end.

Definition operators : list string :=
  ["==="; "~="; "=="; "!="; "<="; ">="; "<"; ">"].

Fixpoint parse_operator (ops : list string) (s : string)
    : option (string * string) :=
  match ops with
  | [] => None
  | op :: ops' =>
      match strip_prefix op s with
      | Some rest => Some (op, rest)
      | None => parse_operator ops' s
      end
  end.

Definition parse_clause (s : string) : option (string * string) :=
  '(op, rest) ← parse_operator operators (strip s);
  let v := strip rest in
  if str_truthy v && all_chars is_version_char v then Some (op, v) else None.

Definition parse_clauses (s : string) : option (list (string * string)) :=
  mapM parse_clause (split_on ","%char s).

Definition parse (s : string) : Requirement + string :=
  let '(n, rest) := span is_name_char s in
  if negb (str_truthy n) then inr "expected a package name"
  else
    let rest := strip rest in
    let clauses :=
      match rest with
      | "" => Some []
      | String "("%char inner =>
          match String.rev inner with
          | String ")"%char r => parse_clauses (String.rev r)
          | _ => None
          end
      | _ => parse_clauses rest
      end in
    match clauses with
    | Some cs => inl {| name := n; version_or_url := cs |}
    | None => inr "invalid version specifier"
    end.

(** The canonical string form of a requirement. *)
Definition to_string (r : Requirement) : string :=
  match version_or_url r with
  | [] => name r
  | cs => name r +:+ " " +:+ commas (map (fun c => fst c +:+ snd c) cs)
  end.

End Pep508.

(** ** A small world for closed examples *)

Module Demo.
Import Sdist.

Definition file (stem : string) : File :=
  {| filename := stem +:+ ".tar.gz";
     url := "https://files.pythonhosted.org/packages/" +:+ stem +:+ ".tar.gz" |}.

Definition is_file (stem : string) (f : File) : bool :=
  String.eqb (filename f) (stem +:+ ".tar.gz").

Definition in_dir (stem : string) (cwd : option string) : bool :=
  match cwd with
  | Some d => endswith d ("/extracted/" +:+ stem)
  | None => false
  end.

(** Two hook calls in the source tree, the second with an override of the
    environment. *)
Definition hooks (src_dir : string) (listing : list string) : Hooks :=
  HooksCall ["python"; "get_requires_for_build_wheel"] (Some src_dir) None
    (HooksCall ["python"; "prepare_metadata_for_build_wheel"] (Some src_dir)
       (Some {[ "PEP517_BUILD_BACKEND" := "setuptools.build_meta" ]})
       (HooksReturn listing)).

(** The front end wraps the errors of a hook call, as pypa/build does.
    [flat-1.0] unpacks to two entries and [empty-1.0] to none;
    [broken-1.0] fails in its second hook; [bare-1.0] builds no
    [.dist-info] and [twice-1.0] builds two; the metadata of [corrupt-1.0]
    does not parse; everything else builds and parses. *)
Definition world : World string string := {|
  user_agent := "monotrail-resolve";
  os_environ := {[ "PATH" := "/usr/bin" ]};
  mkdtemp := "/tmp/tmpsdist";
  stream_get := fun _ => None;
  unpack_archive := fun f =>
    if is_file "flat-1.0" f then Ok ["setup.py"; "flat"]
    else if is_file "empty-1.0" f then Ok []
    else if is_file "broken-1.0" f then Ok ["broken-1.0"]
    else if is_file "bare-1.0" f then Ok ["bare-1.0"]
    else if is_file "twice-1.0" f then Ok ["twice-1.0"]
    else if is_file "corrupt-1.0" f then Ok ["corrupt-1.0"]
    else Ok ["demo-1.0"];
  ProjectBuilder_metadata_path := fun src_dir metadata_dir =>
    if in_dir "bare-1.0" (Some src_dir) then hooks src_dir ["build.log"]
    else if in_dir "twice-1.0" (Some src_dir)
    then hooks src_dir ["a-1.0.dist-info"; "b-1.0.dist-info"]
    else if in_dir "corrupt-1.0" (Some src_dir)
    then hooks src_dir ["corrupt-1.0.dist-info"]
    else hooks src_dir ["demo-1.0.dist-info"; "build.log"];
  ProjectBuilder_reraise := fun _ => Exception "BuildBackendException";
  run := fun cmd cwd env =>
    if in_dir "broken-1.0" cwd
    then match env !! "PEP517_BUILD_BACKEND" with
         | Some _ => {| cp_stdout := "running dist_info;";
                        cp_stderr := "error: no setup script;";
                        cp_returncode := 1 |}
         | None => {| cp_stdout := "requires: wheel;";
                      cp_stderr := "";
                      cp_returncode := 0 |}
         end
    else {| cp_stdout := "ok;"; cp_stderr := ""; cp_returncode := 0 |};
  str_exn := fun e =>
    match e with
    | CalledProcessError _ _ => "Command returned non-zero exit status 1."
    | _ => "error"
    end;
  Distribution_metadata_json := fun dist_info =>
    if endswith dist_info "/corrupt-1.0.dist-info" then Ok "not a record"
    else Ok "name: demo, version: 1.0";
  json_dumps := fun j => "{" +:+ j +:+ "}";
  parse_metadata := fun s =>
    if startswith "{name: " s then Ok s
    else Raise (Exception "invalid metadata");
  str_requires_dist := fun _ => "[]"
|}.

Definition empty_cache (r w : bool) : Cache :=
  {| read := r; write := w; entries := ∅ |}.

Definition start (c : Cache) : St := {| cache := c; trace := [] |}.

End Demo.

(** ** Further observations on a trace of [sdist.py] *)

Module Observe.
Import Sdist.

Definition is_tempdir (ev : Event) : bool :=
  match ev with
  | TempdirCreate _ | TempdirCleanup _ => true
  | _ => false
  end.

Definition is_warning (ev : Event) : bool :=
  match ev with Log WARNING _ => true | _ => false end.

(** How the build front end ends when every runner call returns. *)
Fixpoint hooks_end (h : Hooks) : result (list string) :=
  match h with
  | HooksReturn listing => Ok listing
  | HooksRaise e => Raise e
  | HooksCall _ _ _ k => hooks_end k
  end.

Definition is_CalledProcessError (e : exn) : bool :=
  match e with CalledProcessError _ _ => true | _ => false end.

End Observe.

(** ** test/test_resolve.py: the snapshot mocks *)

Module Pathlib.

(** Split at the last occurrence of a character. *)
Fixpoint split_last (c : ascii) (s : string) : option (string * string) :=
  match s with
  | "" => None
  | String a s' =>
      match split_last c s' with
      | Some (before, after) => Some (String a before, after)
      | None => if Ascii.eqb a c then Some ("", s') else None
      end
  end.

(** [PurePath.name] of a path that does not end in a separator. *)
Definition name (path : string) : string :=
  match split_last "/"%char path with
  | Some (_, n) => n
  | None => path
  end.

(** The name without its suffix: the part before the last dot, when that
    dot is neither the first nor the last character of the name. *)
Definition stem (n : string) : string :=
  match split_last "."%char n with
  | Some (before, after) =>
      if str_truthy before && str_truthy after then before else n
  | None => n
  end.

(** [PurePath.with_suffix] for a non-empty name and a well-formed
    suffix (the cases in which it does not raise). *)
Definition with_suffix (path suffix : string) : string :=
  match split_last "/"%char path with
  | Some (dir, n) => dir +:+ "/" +:+ stem n +:+ suffix
  | None => stem path +:+ suffix
  end.

End Pathlib.

Module TestResolve.
Import Sdist.

(** [httpx.Request], the two attributes the mocks read. *)
Record Request : Type := {
  request_url : string;
  request_headers : list (string * string)
}.

(** [httpx.Response(status_code, json=...)]. *)
Record Response (Json : Type) : Type := {
  status_code : Z;
  json : Json
}.
Arguments status_code {Json} _.
Arguments json {Json} _.

(** What the mocks raise: [FileNotFoundError], or whatever comes out of a
    collaborator ([requests], [build_sdist], the parser). *)
Inductive error : Type :=
| FileNotFoundError (msg : string)
| Upstream (e : exn).

(** The machine the tests run on: whether [UPDATE_SNAPSHOTS] is set to a
    non-empty value, the snapshot files (a path is mapped to the dict that
    [orjson.loads(decompress(...))] reads back from it), and the requests
    sent with [requests.get], oldest first. *)
Record Host (Json : Type) : Type := {
  update_snapshots : bool;
  files : gmap string (gmap string Json);
  requested : list Request
}.
Arguments update_snapshots {Json} _.
Arguments files {Json} _.
Arguments requested {Json} _.

(** The collaborators of the mocks. *)
Record Collaborators (Json Metadata : Type) : Type := {
  requests_get : Request -> result Json;
  json_truthy : Json -> bool;
  to_json_str : Metadata -> string;
  orjson_loads : string -> result Json;
  default_cache_entries : gmap (string * string) string
}.
Arguments requests_get {Json Metadata} _ _.
Arguments json_truthy {Json Metadata} _ _.
Arguments to_json_str {Json Metadata} _ _.
Arguments orjson_loads {Json Metadata} _ _.
Arguments default_cache_entries {Json Metadata} _.

Definition no_such_file (path : string) : string :=
  "[Errno 2] No such file or directory: '" +:+ path +:+ "'".

Definition missing_mock (name path : string) : string :=
  "Missing mock for " +:+ name +:+ " at " +:+ path.

Definition write_file {Json : Type} (path : string)
    (content : gmap string Json) (h : Host Json) : Host Json :=
  {| update_snapshots := update_snapshots h;
     files := <[path := content]> (files h);
     requested := requested h |}.

Definition send {Json : Type} (request : Request) (h : Host Json)
    : Host Json :=
  {| update_snapshots := update_snapshots h;
     files := files h;
     requested := requested h ++ [request] |}.

(** The snapshot file of a mock with the given data directory and stem. *)
Definition snapshot_path (data_dir file_stem : string) : string :=
  Pathlib.with_suffix (joinpath data_dir file_stem) ".json.zst".

(** The dict of an [HttpMock] mirrors its snapshot file once it has been
    loaded or written. *)
Definition in_sync {Json : Type} (cache : gmap string Json) (path : string)
    (h : Host Json) : Prop :=
  cache = ∅ \/ files h !! path = Some cache.

Section Mocks.
Context {Json Metadata : Type}.
Variable C : Collaborators Json Metadata.

(** [httpx_mock_cache_impl].  [cache] is the dict of the [HttpMock] the
    call mutates in place: it goes in and comes out. *)
Definition httpx_mock_cache_impl (data_dir : string) (request : Request)
    (name : string) (cache : gmap string Json) (file_stem : string)
    (h : Host Json)
    : (error + Response Json) * gmap string Json * Host Json :=
  let path := Pathlib.with_suffix (joinpath data_dir file_stem) ".json.zst" in
  let h1 :=
    match files h !! path with
    | None => if update_snapshots h then write_file path ∅ h else h
    | Some _ => h
    end in
  let loaded :=
    if bool_decide (cache = ∅)
    then match files h1 !! path with
         | Some d => inr (d ∪ cache)
         | None => inl (FileNotFoundError (no_such_file path))
         end
    else inr cache in
  match loaded with
  | inl err => (inl err, cache, h1)
  | inr cache1 =>
      let miss :=
        if update_snapshots h1
        then
          let h2 := send request h1 in
          match requests_get C request with
          | Raise e => (inl (Upstream e), cache1, h2)
          | Ok saved =>
              let cache2 := <[name := saved]> cache1 in
              (inr {| status_code := 200; json := saved |}, cache2,
               write_file path cache2 h2)
          end
        else (inl (FileNotFoundError (missing_mock name path)), cache1, h1) in
      match cache1 !! name with
      | Some saved =>
          if json_truthy C saved
          then (inr {| status_code := 200; json := saved |}, cache1, h1)
          else miss
      | None => miss
      end
  end.

(** [class HttpMock]. *)
Record HttpMock : Type := {
  cache_simple : gmap string Json;
  cache_json_metadata : gmap string Json;
  data_dir : string
}.

(** [HttpMock.__init__], without the [mkdir] of the data directory. *)
Definition HttpMock_init (rootpath test_name : string) : HttpMock :=
  {| cache_simple := ∅;
     cache_json_metadata := ∅;
     data_dir := joinpath (joinpath rootpath "test-data") test_name |}.

Definition httpx_mock_simple (self : HttpMock) (request : Request)
    (name : string) (h : Host Json)
    : (error + Response Json) * HttpMock * Host Json :=
  let '(r, cache, h') :=
    httpx_mock_cache_impl (data_dir self) request name (cache_simple self)
                          "simple" h in
  (r, {| cache_simple := cache;
         cache_json_metadata := cache_json_metadata self;
         data_dir := data_dir self |}, h').

Definition httpx_mock_json_metadata (self : HttpMock) (request : Request)
    (name version : string) (h : Host Json)
    : (error + Response Json) * HttpMock * Host Json :=
  let '(r, cache, h') :=
    httpx_mock_cache_impl (data_dir self) request (name +:+ " " +:+ version)
                          (cache_json_metadata self) "json_metadata" h in
  (r, {| cache_simple := cache_simple self;
         cache_json_metadata := cache;
         data_dir := data_dir self |}, h').

(** [class SdistMetadataMock]. *)
Record SdistMetadataMock : Type := {
  test_name : string;
  rootpath : string;
  data : gmap string Json;
  datafile : string
}.

Definition sdist_datafile (test_name rootpath : string) : string :=
  Pathlib.with_suffix
    (joinpath (joinpath (joinpath rootpath "test-data") test_name)
              "sdist_metadata")
    ".json.zst".

(** [SdistMetadataMock.__init__]. *)
Definition SdistMetadataMock_init (test_name rootpath : string)
    (h : Host Json) : error + SdistMetadataMock :=
  let datafile := sdist_datafile test_name rootpath in
  let mock d := {| test_name := test_name; rootpath := rootpath;
                   data := d; datafile := datafile |} in
  match files h !! datafile with
  | None =>
      if update_snapshots h then inr (mock ∅)
      else inl (FileNotFoundError (no_such_file datafile))
  | Some d => inr (mock d)
  end.

Definition missing_snapshot (file : File) : string :=
  "Missing sdist metadata snapshot for " +:+ filename file.

Definition set_data (self : SdistMetadataMock) (d : gmap string Json)
    : SdistMetadataMock :=
  {| test_name := test_name self; rootpath := rootpath self;
     data := d; datafile := datafile self |}.

Variable W : World Json Metadata.

(** The tail of [mock_build_sdist]: answer from [self.data]. *)
Definition answer_from_snapshot (self : SdistMetadataMock) (file : File)
    : result Metadata :=
  match data self !! filename file with
  | Some capture =>
      if json_truthy C capture
      then parse_metadata W (json_dumps W capture)
      else Raise (RuntimeError (missing_snapshot file) None)
  | None => Raise (RuntimeError (missing_snapshot file) None)
  end.

(** [SdistMetadataMock.mock_build_sdist].  With [UPDATE_SNAPSHOTS] set
    it first runs the real [build_sdist] on a cache object of its own,
    [Cache(default_cache_dir, read=False, write=False)], which is dropped
    afterwards; [_cache] is not used.  [t] is the trace of effects so
    far. *)
Definition mock_build_sdist (self : SdistMetadataMock) (file : File)
    (_cache : Cache) (h : Host Json) (t : list Event)
    : result Metadata * SdistMetadataMock * Host Json * list Event :=
  if update_snapshots h
  then
    let '(r, s') :=
      build_sdist W file
        {| cache := {| read := false; write := false;
                       entries := default_cache_entries C |};
           trace := t |} in
    match r with
    | Raise e => (Raise e, self, h, trace s')
    | Ok metadata =>
        match orjson_loads C (to_json_str C metadata) with
        | Raise e => (Raise e, self, h, trace s')
        | Ok recorded =>
            let self' :=
              set_data self (<[filename file := recorded]> (data self)) in
            (answer_from_snapshot self' file, self',
             write_file (datafile self) (data self') h, trace s')
        end
    end
  else (answer_from_snapshot self file, self, h, t).

End Mocks.

End TestResolve.

(** ** A second small world and a test machine for closed examples *)

Module DemoTest.
Import Sdist TestResolve.

(** [Demo.world] with a front end that lets the errors of the runner
    through, and except that [offline-1.0] cannot be downloaded,
    [notanarchive-1.0] cannot be unpacked, the build front end of
    [nobackend-1.0] raises after its first hook, and the hooks of
    [noisy-1.0] succeed while writing to stderr. *)
Definition world : World string string := {|
  user_agent := user_agent Demo.world;
  os_environ := os_environ Demo.world;
  mkdtemp := mkdtemp Demo.world;
  stream_get := fun f =>
    if Demo.is_file "offline-1.0" f then Some (Exception "ConnectError")
    else None;
  unpack_archive := fun f =>
    if Demo.is_file "notanarchive-1.0" f then Raise (Exception "ReadError")
    else if Demo.is_file "nobackend-1.0" f then Ok ["nobackend-1.0"]
    else if Demo.is_file "noisy-1.0" f then Ok ["noisy-1.0"]
    else unpack_archive Demo.world f;
  ProjectBuilder_metadata_path := fun src_dir metadata_dir =>
    if Demo.in_dir "nobackend-1.0" (Some src_dir)
    then HooksCall ["python"; "get_requires_for_build_wheel"] (Some src_dir)
           None (HooksRaise (Exception "BuildException"))
    else ProjectBuilder_metadata_path Demo.world src_dir metadata_dir;
  ProjectBuilder_reraise := fun e => e;
  run := fun cmd cwd env =>
    if Demo.in_dir "noisy-1.0" cwd
    then {| cp_stdout := "ok;";
            cp_stderr := " warning: setup.py is deprecated; ";
            cp_returncode := 0 |}
    else run Demo.world cmd cwd env;
  str_exn := str_exn Demo.world;
  Distribution_metadata_json := Distribution_metadata_json Demo.world;
  json_dumps := json_dumps Demo.world;
  parse_metadata := parse_metadata Demo.world;
  str_requires_dist := str_requires_dist Demo.world
|}.

Definition fresh : St := Demo.start (Demo.empty_cache true true).

(** A JSON value is its text; a metadata record serialises to itself, and
    [orjson.loads] takes the braces of [json_dumps Demo.world] off again;
    the index has no page for [missing]. *)
Definition collaborators : Collaborators string string := {|
  requests_get := fun r =>
    if String.eqb (request_url r) "https://pypi.org/simple/missing/"
    then Raise (Exception "404 Client Error")
    else Ok ("page of " +:+ request_url r);
  json_truthy := str_truthy;
  to_json_str := fun m => m;
  orjson_loads := fun s =>
    match s with
    | String "{"%char rest =>
        match String.rev rest with
        | String "}"%char r => Ok (String.rev r)
        | _ => Raise (Exception "JSONDecodeError")
        end
    | _ => Raise (Exception "JSONDecodeError")
    end;
  default_cache_entries := ∅
|}.

Definition request (u : string) : Request :=
  {| request_url := u;
     request_headers := [("user-agent", "monotrail-resolve")] |}.

Definition host (update : bool) (fs : gmap string (gmap string string))
    : Host string :=
  {| update_snapshots := update; files := fs; requested := [] |}.

Definition pandas_dir : string := "/repo/test-data/pandas".

(** A snapshot that knows [numpy]. *)
Definition recorded : gmap string (gmap string string) :=
  {[ "/repo/test-data/pandas/simple.json.zst"
       := {[ "numpy" := "page of numpy" ]} ]}.

Definition sdist_mock : SdistMetadataMock (Json := string) :=
  {| test_name := "meine_stadt_transparent";
     rootpath := "/repo";
     data := ∅;
     datafile := sdist_datafile "meine_stadt_transparent" "/repo" |}.

End DemoTest.

(** * Facts *)

Import Sdist.

(** ** Strings *)

Lemma str_app_cons (a : ascii) (s t : string) :
  String a s +:+ t = String a (s +:+ t).
Proof. reflexivity. Qed.

Lemma str_app_nil_l (s : string) : "" +:+ s = s.
Proof. reflexivity. Qed.

Lemma str_app_nil_r (s : string) : s +:+ "" = s.
Proof. induction s as [|a s IH]; [reflexivity|]. by rewrite str_app_cons, IH. Qed.

Lemma str_app_assoc (s t u : string) : (s +:+ t) +:+ u = s +:+ (t +:+ u).
Proof.
  induction s as [|a s IH]; [reflexivity|]. by rewrite !str_app_cons, IH.
Qed.

Lemma includes_here (pre s post : string) : includes (pre +:+ s +:+ post) s.
Proof. by exists pre, post. Qed.

Lemma includes_app_r (t u s : string) : includes u s -> includes (t +:+ u) s.
Proof.
  intros (pre & post & ->). exists (t +:+ pre), post. by rewrite str_app_assoc.
Qed.

Lemma str_truthy_nonempty (s : string) : str_truthy s = true <-> s <> "".
Proof. destruct s; simpl; split; intros; congruence. Qed.

(** ** The subprocess runner *)

Ltac run_monad :=
  unfold mbind, M_bind, mret, M_ret, raise, lift, log, emit, emits; simpl.

Section SdistFacts.
Context {Json Metadata : Type}.
Variable W : World Json Metadata.

Lemma runner_env_lookup (extra_environ : option environ) (k : string) :
  runner_env W extra_environ !! k =
    match extra_environ ≫= (.!! k) with
    | Some v => Some v
    | None => os_environ W !! k
    end.
Proof.
  unfold runner_env. destruct extra_environ as [extra|]; simpl; [|done].
  unfold dict_truthy. case_bool_decide as Hempty; simpl.
  - subst extra. by rewrite lookup_empty.
  - rewrite lookup_union. destruct (extra !! k), (os_environ W !! k); done.
Qed.

Lemma captured_app (field : CompletedProcess -> string) (cs cs' : list Call) :
  captured W field (cs ++ cs') = captured W field cs +:+ captured W field cs'.
Proof.
  induction cs as [|c cs IH]; simpl; [done|]. by rewrite IH, str_app_assoc.
Qed.

(** What one run of the build front end leaves behind, whatever its
    outcome. *)
Lemma metadata_path_launched (h : Hooks) (self : Capture) :
  let '(r, self', evs) := metadata_path W h self in
  evs = map (launch W) (launched W (calls h))
  /\ stdout self' = stdout self +:+ captured W cp_stdout (launched W (calls h))
  /\ stderr self' = stderr self +:+ captured W cp_stderr (launched W (calls h)).
Proof.
  revert self. induction h as [listing|e|cmd cwd extra k IH]; intros self; simpl.
  - by rewrite !str_app_nil_r.
  - by rewrite !str_app_nil_r.
  - unfold succeeds, outcome, check_returncode; simpl.
    destruct (cp_returncode _ =? 0)%Z eqn:Hrc; simpl.
    + specialize (IH {| stdout := stdout self +:+ cp_stdout (run W cmd cwd (runner_env W extra));
                        stderr := stderr self +:+ cp_stderr (run W cmd cwd (runner_env W extra)) |}).
      destruct (metadata_path W k _) as [[r self''] evs]. simpl in IH.
      destruct IH as (-> & -> & ->). by rewrite !str_app_assoc.
    + by rewrite !str_app_nil_r.
Qed.

Lemma launched_first_failure (pre post : list Call) (c : Call) :
  forallb (succeeds W) pre = true -> succeeds W c = false ->
  launched W (pre ++ c :: post) = pre ++ [c].
Proof.
  intros Hpre Hc. induction pre as [|p pre IH]; simpl in *.
  - by rewrite Hc.
  - apply andb_true_iff in Hpre as [-> Hpre]. by rewrite IH.
Qed.

Lemma launched_all (cs : list Call) :
  forallb (succeeds W) cs = true -> launched W cs = cs.
Proof.
  induction cs as [|c cs IH]; simpl; [done|].
  intros [-> Hcs]%andb_true_iff. by rewrite IH.
Qed.

Lemma metadata_path_raises (h : Hooks) (self : Capture)
    (pre post : list Call) (c : Call) :
  calls h = pre ++ c :: post ->
  forallb (succeeds W) pre = true -> succeeds W c = false ->
  metadata_path W h self =
    (Raise (ProjectBuilder_reraise W
              (CalledProcessError (call_cmd c) (cp_returncode (outcome W c)))),
     {| stdout := stdout self +:+ captured W cp_stdout (pre ++ [c]);
        stderr := stderr self +:+ captured W cp_stderr (pre ++ [c]) |},
     map (launch W) (pre ++ [c])).
Proof.
  revert h self. induction pre as [|p pre IH]; intros h self Hcalls Hpre Hc;
    (destruct h as [?|?|cmd cwd extra k]; simpl in Hcalls; [done|done|]);
    injection Hcalls as Hhd Hk; simpl.
  - subst c. unfold succeeds, outcome in Hc. simpl in Hc.
    unfold check_returncode. rewrite Hc. by rewrite !str_app_nil_r.
  - subst p. apply andb_true_iff in Hpre as [Hp Hpre].
    unfold succeeds, outcome in Hp. simpl in Hp.
    unfold check_returncode. rewrite Hp.
    rewrite (IH k _ Hk Hpre Hc). simpl. by rewrite !str_app_assoc.
Qed.

Lemma run_is_not_download (cs : list Call) :
  List.filter is_http_get (map (launch W) cs) = []
  /\ List.filter is_unpack (map (launch W) cs) = []
  /\ List.filter is_run (map (launch W) cs) = map (launch W) cs.
Proof.
  induction cs as [|c cs (IH1 & IH2 & IH3)]; simpl; [done|].
  by rewrite IH1, IH2, IH3.
Qed.

(** ** build_sdist_impl *)

(** [build_sdist_impl] never touches the cache and only appends to the
    trace. *)
Lemma build_sdist_impl_frame (file : File) (tempdir : string) (s : St) :
  build_sdist_impl W file tempdir s =
    (fst (build_sdist_impl W file tempdir {| cache := cache s; trace := [] |}),
     {| cache := cache s;
        trace := trace s ++
          trace (snd (build_sdist_impl W file tempdir
                        {| cache := cache s; trace := [] |})) |}).
Proof.
  unfold build_sdist_impl. run_monad.
  destruct (stream_get W file); simpl; [by rewrite <- !app_assoc|].
  destruct (unpack_archive W file) as [top|e]; simpl;
    [|by rewrite <- !app_assoc].
  destruct top as [|d [|d' top]]; simpl; try by rewrite <- !app_assoc.
  destruct (metadata_path W _ _) as [[r capture] evs]. simpl.
  destruct r as [listing|e]; simpl.
  - destruct (str_truthy (stderr capture)); simpl;
      destruct (List.filter is_dist_info listing) as [|x [|y l]]; simpl;
      by rewrite <- !app_assoc.
  - destruct e; simpl; by rewrite <- !app_assoc.
Qed.

(** The part of [build_sdist_impl] up to the end of the hook calls, when
    the download went through and the archive has one top-level entry. *)
Lemma build_sdist_impl_built (file : File) (tempdir d : string) (s : St) :
  stream_get W file = None ->
  unpack_archive W file = Ok [d] ->
  build_sdist_impl W file tempdir s =
    let metadata_dir := joinpath tempdir "metadata" in
    let '(r, capture, evs) :=
      metadata_path W
        (ProjectBuilder_metadata_path W
           (joinpath (joinpath tempdir "extracted") d) metadata_dir)
        ProjectHooksCaptureOutput in
    let t := [Log INFO ("Downloading " +:+ filename file);
              HttpGet (url file) (user_agent W)
                      (joinpath tempdir (filename file));
              Log INFO ("Extracting " +:+ filename file);
              UnpackArchive (joinpath tempdir (filename file))
                            (joinpath tempdir "extracted");
              Log INFO ("Building " +:+ filename file)] ++ evs in
    match r with
    | Raise (CalledProcessError cmd rc) =>
        (Raise (RuntimeError
                  (failed_to_build W file (CalledProcessError cmd rc) capture)
                  None),
         {| cache := cache s; trace := trace s ++ t |})
    | Raise e => (Raise e, {| cache := cache s; trace := trace s ++ t |})
    | Ok listing =>
        let t' := t ++ (if str_truthy (stderr capture)
                        then [Log WARNING (messages_from_building file capture)]
                        else [])
                    ++ [Log INFO ("Finished " +:+ filename file)] in
        (match List.filter is_dist_info listing with
         | [x] => Distribution_metadata_json W (joinpath metadata_dir x)
         | _ => Raise ValueError
         end,
         {| cache := cache s; trace := trace s ++ t' |})
    end.
Proof.
  intros Hget Hun. unfold build_sdist_impl. run_monad. rewrite Hget, Hun. simpl.
  destruct (metadata_path W _ _) as [[r capture] evs]. simpl.
  destruct r as [listing|e]; simpl.
  - destruct (str_truthy (stderr capture)); simpl;
      destruct (List.filter is_dist_info listing) as [|x [|y l]]; simpl;
      by rewrite <- !app_assoc.
  - destruct e; simpl; by rewrite <- !app_assoc.
Qed.

(** C4: when the download went through and unpacking leaves zero or more
    than one top-level entry, [build_sdist_impl] raises [ValueError]; it
    leaves the cache alone, its last effect is the ERROR log of the
    listing, and no build-backend subprocess was launched. *)
Theorem unpack_must_yield_one_entry (file : File) (tempdir : string) (s : St)
    (top : list string) :
  stream_get W file = None ->
  unpack_archive W file = Ok top ->
  length top <> 1%nat ->
  exists t : list Event,
    build_sdist_impl W file tempdir s =
      (Raise ValueError, {| cache := cache s; trace := trace s ++ t |})
    /\ List.filter is_run t = []
    /\ last t = Some (Log ERROR
                        (str_paths (map (joinpath (joinpath tempdir "extracted"))
                                        top))).
Proof.
  intros Hget Hun Hlen.
  exists [Log INFO ("Downloading " +:+ filename file);
          HttpGet (url file) (user_agent W) (joinpath tempdir (filename file));
          Log INFO ("Extracting " +:+ filename file);
          UnpackArchive (joinpath tempdir (filename file))
                        (joinpath tempdir "extracted");
          Log ERROR (str_paths (map (joinpath (joinpath tempdir "extracted"))
                                    top))].
  split; [|done].
  unfold build_sdist_impl. run_monad. rewrite Hget, Hun. simpl.
  destruct top as [|d [|d' top']]; simpl in *; try lia;
    by rewrite <- !app_assoc.
Qed.

(** C5: when a hook subprocess exits with a non-zero status (all calls
    before it having succeeded), what [build_sdist_impl] raises depends on
    what the build front end makes of the runner's [CalledProcessError].
    If a [CalledProcessError] comes out of [metadata_path], the
    [except] clause turns it into a [RuntimeError], not chained to a
    cause, whose message is the "Failed to build metadata for" text and
    contains the file name and the stdout and the stderr captured from
    every subprocess launched, the failing one included.  If the front
    end raises anything else in its place, the [except] clause does not
    match and that exception comes out of [build_sdist_impl] as it is. *)
Theorem hook_failure_is_reported_only_if_passed_through (file : File)
    (tempdir d : string) (s : St) (pre post : list Call) (c : Call) :
  stream_get W file = None ->
  unpack_archive W file = Ok [d] ->
  calls (ProjectBuilder_metadata_path W
           (joinpath (joinpath tempdir "extracted") d)
           (joinpath tempdir "metadata")) = pre ++ c :: post ->
  forallb (succeeds W) pre = true ->
  succeeds W c = false ->
  let raised := ProjectBuilder_reraise W
                  (CalledProcessError (call_cmd c)
                                      (cp_returncode (outcome W c))) in
  (forall (cmd : list string) (rc : Z),
      raised = CalledProcessError cmd rc ->
      exists msg : string,
        fst (build_sdist_impl W file tempdir s) = Raise (RuntimeError msg None)
        /\ msg = failed_to_build W file raised
                   {| stdout := captured W cp_stdout (pre ++ [c]);
                      stderr := captured W cp_stderr (pre ++ [c]) |}
        /\ includes msg (filename file)
        /\ includes msg (captured W cp_stdout (pre ++ [c]))
        /\ includes msg (captured W cp_stderr (pre ++ [c])))
  /\ ((forall (cmd : list string) (rc : Z),
         raised <> CalledProcessError cmd rc) ->
      fst (build_sdist_impl W file tempdir s) = Raise raised).
Proof.
  intros Hget Hun Hcalls Hpre Hc raised.
  assert (Himpl : fst (build_sdist_impl W file tempdir s) =
    match raised with
    | CalledProcessError cmd rc =>
        Raise (RuntimeError
                 (failed_to_build W file (CalledProcessError cmd rc)
                    {| stdout := captured W cp_stdout (pre ++ [c]);
                       stderr := captured W cp_stderr (pre ++ [c]) |})
                 None)
    | e => Raise e
    end).
  { rewrite (build_sdist_impl_built _ _ _ _ Hget Hun). simpl.
    rewrite (metadata_path_raises _ _ _ _ _ Hcalls Hpre Hc). fold raised.
    by destruct raised. }
  split.
  - intros cmd rc Hraised. eexists. split; [|split; [reflexivity|]].
    + rewrite Himpl, Hraised. reflexivity.
    + unfold failed_to_build. simpl. split; [|split].
      * apply includes_here.
      * do 6 apply includes_app_r. apply includes_here.
      * do 10 apply includes_app_r. apply includes_here.
  - intros Hother. rewrite Himpl. destruct raised as [|cmd rc| |]; try done.
    by destruct (Hother cmd rc).
Qed.

(** C6: the subprocess of a runner call gets [os.environ] updated with
    [extra_environ] (an entry of [extra_environ] wins, every other
    variable is inherited), its output is appended to the capture before
    the exit status is checked; over one run of the hooks the capture is
    the concatenation, in call order, of the outputs of the subprocesses
    launched; and the subprocesses on the trace of a build are exactly
    those launches. *)
Theorem runner_environment_and_capture :
  (forall (self : Capture) (cmd : list string) (cwd : option string)
          (extra_environ : option environ),
      exists env : environ,
        subprocess_runner W self cmd cwd extra_environ =
          (check_returncode cmd (run W cmd cwd env),
           {| stdout := stdout self +:+ cp_stdout (run W cmd cwd env);
              stderr := stderr self +:+ cp_stderr (run W cmd cwd env) |},
           Run cmd cwd env)
        /\ forall k : string,
             env !! k = match extra_environ ≫= (.!! k) with
                        | Some v => Some v
                        | None => os_environ W !! k
                        end)
  /\ (forall h : Hooks,
        let r := metadata_path W h ProjectHooksCaptureOutput in
        snd r = map (launch W) (launched W (calls h))
        /\ stdout (snd (fst r)) = captured W cp_stdout (launched W (calls h))
        /\ stderr (snd (fst r)) = captured W cp_stderr (launched W (calls h)))
  /\ (forall (file : File) (tempdir d : string) (s : St),
        stream_get W file = None ->
        unpack_archive W file = Ok [d] ->
        List.filter is_run
          (trace (snd (build_sdist_impl W file tempdir
                         {| cache := cache s; trace := [] |})))
        = map (launch W)
              (launched W
                 (calls (ProjectBuilder_metadata_path W
                           (joinpath (joinpath tempdir "extracted") d)
                           (joinpath tempdir "metadata"))))).
Proof.
  split; [|split].
  - intros self cmd cwd extra. exists (runner_env W extra).
    split; [reflexivity|]. apply runner_env_lookup.
  - intros h. pose proof (metadata_path_launched h ProjectHooksCaptureOutput) as H.
    simpl. destruct (metadata_path W h _) as [[r self'] evs]. simpl. exact H.
  - intros file tempdir d s Hget Hun.
    rewrite (build_sdist_impl_built _ _ _ _ Hget Hun). simpl.
    pose proof (metadata_path_launched
                  (ProjectBuilder_metadata_path W
                     (joinpath (joinpath tempdir "extracted") d)
                     (joinpath tempdir "metadata"))
                  ProjectHooksCaptureOutput) as H.
    destruct (metadata_path W _ _) as [[r capture] evs].
    destruct H as (-> & _).
    destruct r as [listing|e]; [|destruct e]; simpl;
      rewrite ?List.filter_app, (proj2 (proj2 (run_is_not_download _)));
      try destruct (str_truthy (stderr capture)); simpl;
      by rewrite ?app_nil_r.
Qed.

(** C9: [build_sdist_impl] returns a record only when the hooks ran
    through and left exactly one entry ending in [.dist-info] in the
    metadata directory, and then it is the metadata read at that entry;
    with zero or several such entries it raises [ValueError]. *)
Theorem dist_info_must_be_unique (file : File) (tempdir : string) (s : St) :
  (forall j : Json,
      fst (build_sdist_impl W file tempdir s) = Ok j ->
      exists (d : string) (listing : list string) (capture : Capture)
             (evs : list Event) (x : string),
        unpack_archive W file = Ok [d]
        /\ metadata_path W
             (ProjectBuilder_metadata_path W
                (joinpath (joinpath tempdir "extracted") d)
                (joinpath tempdir "metadata"))
             ProjectHooksCaptureOutput = (Ok listing, capture, evs)
        /\ List.filter is_dist_info listing = [x]
        /\ Distribution_metadata_json W
             (joinpath (joinpath tempdir "metadata") x) = Ok j)
  /\ (forall (d : string) (listing : list string) (capture : Capture)
             (evs : list Event),
        stream_get W file = None ->
        unpack_archive W file = Ok [d] ->
        metadata_path W
          (ProjectBuilder_metadata_path W
             (joinpath (joinpath tempdir "extracted") d)
             (joinpath tempdir "metadata"))
          ProjectHooksCaptureOutput = (Ok listing, capture, evs) ->
        length (List.filter is_dist_info listing) <> 1%nat ->
        fst (build_sdist_impl W file tempdir s) = Raise ValueError).
Proof.
  split.
  - intros j. unfold build_sdist_impl. run_monad.
    destruct (stream_get W file); simpl; [done|].
    destruct (unpack_archive W file) as [top|e]; simpl; [|done].
    destruct top as [|d [|d' top]]; simpl; [done| |done].
    destruct (metadata_path W _ _) as [[r capture] evs] eqn:Hmp. simpl.
    destruct r as [listing|e]; simpl; [|by destruct e].
    destruct (str_truthy (stderr capture)); simpl;
      destruct (List.filter is_dist_info listing) as [|x [|y l]] eqn:Hf;
      simpl; try done; intros Hj; by exists d, listing, capture, evs, x.
  - intros d listing capture evs Hget Hun Hmp Hlen.
    rewrite (build_sdist_impl_built _ _ _ _ Hget Hun). simpl. rewrite Hmp.
    simpl. destruct (List.filter is_dist_info listing) as [|x [|y l]];
      simpl in *; done.
Qed.

(** Each invocation of [build_sdist_impl] opens exactly one download. *)
Lemma build_sdist_impl_one_download (file : File) (tempdir : string) (s : St) :
  driver_runs (trace (snd (build_sdist_impl W file tempdir
                             {| cache := cache s; trace := [] |}))) = 1%nat.
Proof.
  unfold build_sdist_impl, driver_runs. run_monad.
  destruct (stream_get W file); simpl; [done|].
  destruct (unpack_archive W file) as [top|e]; simpl; [|done].
  destruct top as [|d [|d' top]]; simpl; [done| |done].
  pose proof (metadata_path_launched
                (ProjectBuilder_metadata_path W
                   (joinpath (joinpath tempdir "extracted") d)
                   (joinpath tempdir "metadata"))
                ProjectHooksCaptureOutput) as H.
  destruct (metadata_path W _ _) as [[r capture] evs]. destruct H as (-> & _).
  simpl.
  assert (Hno : forall post, List.filter is_http_get
            (map (launch W) (launched W (calls
               (ProjectBuilder_metadata_path W
                  (joinpath (joinpath tempdir "extracted") d)
                  (joinpath tempdir "metadata")))) ++ post)
          = List.filter is_http_get post).
  { intros post. rewrite List.filter_app.
    by rewrite (proj1 (run_is_not_download _)). }
  destruct r as [listing|e]; simpl.
  - destruct (str_truthy (stderr capture)); simpl;
      destruct (List.filter is_dist_info listing) as [|x [|y l]]; simpl;
      rewrite <- ?app_assoc, ?Hno; simpl; rewrite ?Hno; done.
  - destruct e; simpl; rewrite <- ?app_assoc, ?Hno;
      rewrite <- (app_nil_r (map _ _)), ?Hno; done.
Qed.

(** ** build_sdist *)

Lemma build_sdist_hit (file : File) (s : St) (v : string) :
  cache_hit (cache s) file = Some v ->
  build_sdist W file s =
    let hit_log := Log INFO ("Using cached json metadata for " +:+ filename file) in
    match parse_metadata W v with
    | Ok parsed =>
        (Ok parsed,
         {| cache := cache s;
            trace := trace s ++
              [hit_log;
               Log INFO ("sdist " +:+ filename file +:+ " "
                           +:+ str_requires_dist W parsed)] |})
    | Raise e =>
        (Raise (RuntimeError (failed_to_parse file) (Some e)),
         {| cache := cache s; trace := trace s ++ [hit_log] |})
    end.
Proof.
  unfold cache_hit, build_sdist, get. run_monad.
  destruct (cache_get _ _ _) as [v'|]; [|done].
  destruct (str_truthy v') eqn:Hv; [|done]. intros [= ->]. simpl.
  destruct (parse_metadata W v); simpl; [|done]. by rewrite <- app_assoc.
Qed.

Lemma build_sdist_miss (file : File) (s : St) :
  cache_hit (cache s) file = None ->
  build_sdist W file s =
    let r := build_sdist_impl W file (mkdtemp W)
               {| cache := cache s; trace := [] |} in
    let t := TempdirCreate (mkdtemp W) :: trace (snd r)
               ++ [TempdirCleanup (mkdtemp W)] in
    match fst r with
    | Raise e => (Raise e, {| cache := cache s; trace := trace s ++ t |})
    | Ok j =>
        let c' := cache_set (cache s) "sdist_build_metadata" (cache_key file)
                            (json_dumps W j) in
        match parse_metadata W (json_dumps W j) with
        | Ok parsed =>
            (Ok parsed,
             {| cache := c';
                trace := trace s ++ t ++
                  [Log INFO ("sdist " +:+ filename file +:+ " "
                               +:+ str_requires_dist W parsed)] |})
        | Raise e =>
            (Raise (RuntimeError (failed_to_parse file) (Some e)),
             {| cache := c'; trace := trace s ++ t |})
        end
    end.
Proof.
  intros Hmiss.
  assert (Hfresh : build_sdist W file s =
    (metadata ← build_and_store W file;
     match parse_metadata W metadata with
     | Ok parsed =>
         log INFO ("sdist " +:+ filename file +:+ " "
                     +:+ str_requires_dist W parsed);;
         mret parsed
     | Raise e => raise (RuntimeError (failed_to_parse file) (Some e))
     end) s).
  { unfold cache_hit in Hmiss. unfold build_sdist, get. run_monad.
    destruct (cache_get _ _ _) as [v|]; [|done].
    by destruct (str_truthy v). }
  rewrite Hfresh. unfold build_and_store, with_TemporaryDirectory, try_finally, set.
  run_monad.
  rewrite (build_sdist_impl_frame file (mkdtemp W)
             {| cache := cache s; trace := trace s ++ [TempdirCreate (mkdtemp W)] |}).
  simpl.
  destruct (build_sdist_impl W file (mkdtemp W) {| cache := cache s; trace := [] |})
    as [[j|e] s1]; simpl.
  - destruct (parse_metadata W (json_dumps W j)); simpl;
      by rewrite <- ?app_assoc.
  - by rewrite <- ?app_assoc.
Qed.


Lemma cache_hit_after_set (c : Cache) (file : File) (v : string) :
  read c = true -> write c = true -> v <> "" ->
  cache_hit (cache_set c "sdist_build_metadata" (cache_key file) v) file
    = Some v.
Proof.
  intros Hr Hw Hv. unfold cache_hit, cache_get, cache_set. rewrite Hw. simpl.
  rewrite Hr, lookup_insert_eq. by apply str_truthy_nonempty in Hv as ->.
Qed.


(** C8: when the string handed to [parse_metadata] (the cached value, or
    the serialised result of a build that went through) does not parse,
    [build_sdist] raises the [RuntimeError] "Failed to parse sdist built
    metadata for <filename>, this is most likely a bug", chained to the
    parser's exception; the message contains the file name and is never
    the message of a build failure. *)
Theorem parse_failure_is_reported (file : File) (s : St) (e : exn) :
  (forall v : string,
      cache_hit (cache s) file = Some v ->
      parse_metadata W v = Raise e ->
      fst (build_sdist W file s) =
        Raise (RuntimeError (failed_to_parse file) (Some e)))
  /\ (forall j : Json,
        cache_hit (cache s) file = None ->
        fst (build_sdist_impl W file (mkdtemp W)
               {| cache := cache s; trace := [] |}) = Ok j ->
        parse_metadata W (json_dumps W j) = Raise e ->
        fst (build_sdist W file s) =
          Raise (RuntimeError (failed_to_parse file) (Some e)))
  /\ includes (failed_to_parse file) (filename file)
  /\ (forall (file' : File) (e' : exn) (capture : Capture),
        failed_to_parse file <> failed_to_build W file' e' capture).
Proof.
  split; [|split; [|split]].
  - intros v Hhit Hparse. rewrite (build_sdist_hit _ _ _ Hhit). simpl.
    by rewrite Hparse.
  - intros j Hmiss Hbuilt Hparse. rewrite (build_sdist_miss _ _ Hmiss). simpl.
    rewrite Hbuilt, Hparse. done.
  - apply includes_here.
  - intros file' e' capture. unfold failed_to_parse, failed_to_build.
    cbv [String.append]. discriminate.
Qed.

(** C10: a call that misses the cache and returns a record has stored in
    a writable cache exactly the string it parsed, and every call that the
    cache answers with that string returns the same record; right after
    the populating call a readable cache does answer with it. *)
Theorem cached_record_equals_built_record (file : File) (s s1 : St)
    (parsed : Metadata) :
  cache_hit (cache s) file = None ->
  write (cache s) = true ->
  build_sdist W file s = (Ok parsed, s1) ->
  exists j : Json,
    fst (build_sdist_impl W file (mkdtemp W)
           {| cache := cache s; trace := [] |}) = Ok j
    /\ entries (cache s1) !! ("sdist_build_metadata", cache_key file)
         = Some (json_dumps W j)
    /\ parse_metadata W (json_dumps W j) = Ok parsed
    /\ (forall s2 : St,
          cache_hit (cache s2) file = Some (json_dumps W j) ->
          fst (build_sdist W file s2) = Ok parsed)
    /\ (read (cache s) = true -> json_dumps W j <> "" ->
         cache_hit (cache s1) file = Some (json_dumps W j)).
Proof.
  intros Hmiss Hw Hfirst.
  rewrite (build_sdist_miss _ _ Hmiss) in Hfirst. simpl in Hfirst.
  destruct (build_sdist_impl W file (mkdtemp W) _) as [[j|e] s'];
    simpl in Hfirst; [|done].
  destruct (parse_metadata W (json_dumps W j)) as [p|e] eqn:Hparse; [|done].
  injection Hfirst as -> <-. exists j. simpl.
  split; [done|]. split; [|split; [done|split]].
  - unfold cache_set. rewrite Hw. simpl. apply lookup_insert_eq.
  - intros s2 Hhit. rewrite (build_sdist_hit _ _ _ Hhit). simpl.
    by rewrite Hparse.
  - intros Hr Hne. by apply cache_hit_after_set.
Qed.

End SdistFacts.

(** ** The requirement fixup *)

Import Resolve.

Ltac by_cases_on_char a :=
  destruct a as [[] [] [] [] [] [] [] []]; try reflexivity; try discriminate.

Lemma digit_is_no_comparator (a : ascii) :
  is_digit a = true -> is_comparator_start a = false.
Proof. by_cases_on_char a. Qed.

Lemma version_char_is_no_comparator (a : ascii) :
  is_version_char a = true -> is_comparator_start a = false.
Proof. by_cases_on_char a. Qed.

Lemma comparator_is_no_digit (a : ascii) :
  is_comparator_start a = true -> is_digit a = false.
Proof. by_cases_on_char a. Qed.

Lemma starts_comparator_head (a : ascii) (s : string) :
  is_comparator_start a = false -> starts_comparator (String a s) = false.
Proof. by_cases_on_char a. Qed.

Lemma starts_comparator_two (a c : ascii) (t t' : string) :
  starts_comparator (String a (String c t))
  = starts_comparator (String a (String c t')).
Proof. by_cases_on_char a. Qed.

Lemma repair_bounds_cons (b : bool) (a : ascii) (s : string) :
  repair_bounds b (String a s) =
    if b && is_digit a && starts_comparator s
    then String a (String ","%char (repair_bounds false s))
    else String a (repair_bounds (in_bound_after b a) s).
Proof. reflexivity. Qed.

Lemma repair_bounds_head (b : bool) (a : ascii) (s : string) :
  exists t : string, repair_bounds b (String a s) = String a t.
Proof. rewrite repair_bounds_cons. destruct (_ && _); eauto. Qed.

(** The repair does not change whether a text begins with a comparator. *)
Lemma starts_comparator_repair (b : bool) (s : string) :
  starts_comparator (repair_bounds b s) = starts_comparator s.
Proof.
  destruct s as [|a s]; [reflexivity|]. rewrite repair_bounds_cons.
  destruct (b && is_digit a && starts_comparator s) eqn:Htest.
  - apply andb_true_iff in Htest as [[_ Hd]%andb_true_iff _].
    apply digit_is_no_comparator in Hd.
    by rewrite !starts_comparator_head.
  - destruct s as [|c s]; [reflexivity|].
    destruct (repair_bounds_head (in_bound_after b a) c s) as [t ->].
    apply starts_comparator_two.
Qed.

(** After the repair no digit of a bound is followed by a comparator any
    more, so a second pass finds nothing to do. *)
Lemma repair_bounds_idempotent (b : bool) (s : string) :
  repair_bounds b (repair_bounds b s) = repair_bounds b s.
Proof.
  revert b. induction s as [|a s IH]; intros b; [reflexivity|].
  rewrite repair_bounds_cons.
  destruct (b && is_digit a && starts_comparator s) eqn:Htest.
  - apply andb_true_iff in Htest as [[-> Hd]%andb_true_iff Hs].
    rewrite repair_bounds_cons. simpl starts_comparator.
    rewrite andb_false_r.
    assert (Hstay : in_bound_after true a = true).
    { unfold in_bound_after.
      rewrite (digit_is_no_comparator _ Hd). revert Hd. by_cases_on_char a. }
    rewrite Hstay, repair_bounds_cons. simpl. by rewrite IH.
  - rewrite repair_bounds_cons, starts_comparator_repair, Htest. by rewrite IH.
Qed.

Lemma add_missing_comma_idempotent (s : string) :
  add_missing_comma (add_missing_comma s) = add_missing_comma s.
Proof. apply repair_bounds_idempotent. Qed.

(** Text without a comparator character, such as a name, an opening
    bracket or blanks, is copied, and the scan stays outside a bound. *)
Lemma repair_bounds_prefix (p s : string) :
  every (fun a => negb (is_comparator_start a)) p = true ->
  repair_bounds false (p +:+ s) = p +:+ repair_bounds false s.
Proof.
  induction p as [|a p IH]; [reflexivity|]. cbn [every].
  intros [Ha Hp]%andb_true_iff. apply negb_true_iff in Ha.
  rewrite !str_app_cons, repair_bounds_cons. simpl.
  assert (Hout : in_bound_after false a = false).
  { unfold in_bound_after. rewrite Ha. by destruct (_ || _). }
  by rewrite Hout, IH.
Qed.

(** A comparator is copied and opens a bound. *)
Lemma repair_bounds_comparator (b : bool) (op s : string) :
  every is_comparator_start op = true -> op <> "" ->
  repair_bounds b (op +:+ s) = op +:+ repair_bounds true s.
Proof.
  revert b. induction op as [|a op IH]; intros b; [done|]. cbn [every].
  intros [Ha Hop]%andb_true_iff _.
  rewrite !str_app_cons, repair_bounds_cons.
  rewrite (comparator_is_no_digit _ Ha), andb_false_r. simpl.
  assert (Hin : in_bound_after b a = true).
  { unfold in_bound_after. by rewrite Ha. }
  rewrite Hin. destruct op as [|c op].
  - by rewrite str_app_nil_l.
  - by rewrite (IH true Hop).
Qed.

(** Inside a bound the version text is copied up to its last digit, and
    the comma goes between that digit and the comparator behind it. *)
Lemma repair_bounds_version (v : string) (d : ascii) (rest : string) :
  every is_version_char v = true ->
  is_digit d = true ->
  starts_comparator rest = true ->
  repair_bounds true (v +:+ String d rest)
    = v +:+ String d (String ","%char (repair_bounds false rest)).
Proof.
  intros Hv Hd Hrest. induction v as [|a v IH].
  - rewrite !str_app_nil_l, repair_bounds_cons. by rewrite Hd, Hrest.
  - simpl in Hv. apply andb_true_iff in Hv as [Ha Hv].
    rewrite !str_app_cons, repair_bounds_cons.
    assert (Hnext : starts_comparator (v +:+ String d rest) = false).
    { destruct v as [|c v].
      - rewrite str_app_nil_l. apply starts_comparator_head.
        by apply digit_is_no_comparator.
      - rewrite str_app_cons. apply starts_comparator_head.
        simpl in Hv. apply andb_true_iff in Hv as [Hc _].
        by apply version_char_is_no_comparator. }
    rewrite Hnext, andb_false_r.
    assert (Hin : in_bound_after true a = true).
    { unfold in_bound_after.
      by rewrite (version_char_is_no_comparator _ Ha), Ha. }
    by rewrite Hin, (IH Hv).
Qed.

(** Where no digit is followed by a comparator, nothing changes. *)
Lemma repair_bounds_unchanged (b : bool) (s : string) :
  digit_before_comparator s = false -> repair_bounds b s = s.
Proof.
  revert b. induction s as [|a s IH]; intros b; [reflexivity|]. simpl.
  intros [Ha Hs]%orb_false_iff. rewrite <- andb_assoc, Ha, andb_false_r.
  by rewrite (IH _ Hs).
Qed.

(** The comma goes between two adjacent bounds, whatever stands in front
    of the first comparator. *)
Lemma comma_between_adjacent_bounds (p op v : string) (d : ascii)
    (rest : string) :
  every (fun a => negb (is_comparator_start a)) p = true ->
  every is_comparator_start op = true -> op <> "" ->
  every is_version_char v = true ->
  is_digit d = true ->
  starts_comparator rest = true ->
  add_missing_comma (p +:+ op +:+ v +:+ String d rest)
    = p +:+ op +:+ v +:+ String d (String ","%char (add_missing_comma rest)).
Proof.
  intros Hp Hop Hne Hv Hd Hrest. unfold add_missing_comma.
  rewrite (repair_bounds_prefix _ _ Hp), (repair_bounds_comparator _ _ _ Hop Hne).
  by rewrite (repair_bounds_version _ _ _ Hv Hd Hrest).
Qed.

Lemma warning_names_both (requirement debug_source : string) :
  includes (missing_comma_warning requirement debug_source) requirement
  /\ includes (missing_comma_warning requirement debug_source) debug_source.
Proof.
  unfold missing_comma_warning. split.
  - apply includes_here.
  - do 2 apply includes_app_r. apply includes_here.
Qed.

Section FixupFacts.
Context {Requirement Pep508Error : Type}.
Variable parse : string -> Requirement + Pep508Error.

Lemma fixup_valid (requirement debug_source : string) (parsed : Requirement) :
  parse requirement = inl parsed ->
  parse_requirement_fixup parse requirement debug_source = (inl parsed, []).
Proof. intros H. unfold parse_requirement_fixup. by rewrite H. Qed.

Lemma fixup_repaired (requirement debug_source : string)
    (err : Pep508Error) (parsed : Requirement) :
  parse requirement = inr err ->
  parse (add_missing_comma requirement) = inl parsed ->
  parse_requirement_fixup parse requirement debug_source =
    (inl parsed, [missing_comma_warning requirement debug_source]).
Proof. intros H1 H2. unfold parse_requirement_fixup. by rewrite H1, H2. Qed.

Lemma fixup_unrepairable (requirement debug_source : string)
    (err err' : Pep508Error) :
  parse requirement = inr err ->
  parse (add_missing_comma requirement) = inr err' ->
  parse_requirement_fixup parse requirement debug_source = (inr err, []).
Proof. intros H1 H2. unfold parse_requirement_fixup. by rewrite H1, H2. Qed.

(** The fixup on a requirement with two adjacent bounds and nothing
    else to repair behind them. *)
Lemma fixup_adjacent_bounds (p op v : string) (d : ascii)
    (rest debug_source : string) (err : Pep508Error) (parsed : Requirement) :
  every (fun a => negb (is_comparator_start a)) p = true ->
  every is_comparator_start op = true -> op <> "" ->
  every is_version_char v = true ->
  is_digit d = true ->
  starts_comparator rest = true ->
  digit_before_comparator rest = false ->
  parse (p +:+ op +:+ v +:+ String d rest) = inr err ->
  parse (p +:+ op +:+ v +:+ String d (String ","%char rest)) = inl parsed ->
  parse_requirement_fixup parse (p +:+ op +:+ v +:+ String d rest)
                          debug_source
    = (inl parsed,
       [missing_comma_warning (p +:+ op +:+ v +:+ String d rest)
                              debug_source]).
Proof.
  intros Hp Hop Hne Hv Hd Hrest Hclean Hraw Hfixed.
  apply (fixup_repaired _ _ err); [done|].
  rewrite (comma_between_adjacent_bounds _ _ _ _ _ Hp Hop Hne Hv Hd Hrest).
  unfold add_missing_comma. by rewrite (repair_bounds_unchanged _ _ Hclean).
Qed.

(** C2: the fixup returns the strict parse when there is one and warns
    about nothing; otherwise it parses the repaired string and, if that
    succeeds, logs the one warning, which contains the raw string and the
    context; otherwise it surfaces the first error.  The repair puts a
    comma between two adjacent bounds (after the last digit of a version
    that a comparator follows immediately), whatever text without a
    comparator stands in front, a name ending in a digit included, and
    changes nothing where no digit is followed by a comparator; so a
    requirement with two adjacent bounds that the parser rejects, and
    accepts with the comma, comes back as the parse of the spelling with
    the comma, with the warning.  The requirement of the test is one of
    these. *)
Theorem fixup_repairs_missing_comma :
  (forall requirement debug_source : string,
      match parse requirement with
      | inl parsed =>
          parse_requirement_fixup parse requirement debug_source
            = (inl parsed, [])
      | inr err =>
          match parse (add_missing_comma requirement) with
          | inl parsed =>
              parse_requirement_fixup parse requirement debug_source
                = (inl parsed,
                   [missing_comma_warning requirement debug_source])
          | inr _ =>
              parse_requirement_fixup parse requirement debug_source
                = (inr err, [])
          end
      end)
  /\ (forall requirement debug_source : string,
        includes (missing_comma_warning requirement debug_source) requirement
        /\ includes (missing_comma_warning requirement debug_source)
                    debug_source)
  /\ (forall (p op v : string) (d : ascii) (rest : string),
        every (fun a => negb (is_comparator_start a)) p = true ->
        every is_comparator_start op = true -> op <> "" ->
        every is_version_char v = true ->
        is_digit d = true ->
        starts_comparator rest = true ->
        add_missing_comma (p +:+ op +:+ v +:+ String d rest)
          = p +:+ op +:+ v
              +:+ String d (String ","%char (add_missing_comma rest)))
  /\ (forall s : string,
        digit_before_comparator s = false -> add_missing_comma s = s)
  /\ (forall (p op v : string) (d : ascii) (rest debug_source : string)
             (err : Pep508Error) (parsed : Requirement),
        every (fun a => negb (is_comparator_start a)) p = true ->
        every is_comparator_start op = true -> op <> "" ->
        every is_version_char v = true ->
        is_digit d = true ->
        starts_comparator rest = true ->
        digit_before_comparator rest = false ->
        parse (p +:+ op +:+ v +:+ String d rest) = inr err ->
        parse (p +:+ op +:+ v +:+ String d (String ","%char rest))
          = inl parsed ->
        parse_requirement_fixup parse (p +:+ op +:+ v +:+ String d rest)
                                debug_source
          = (inl parsed,
             [missing_comma_warning (p +:+ op +:+ v +:+ String d rest)
                                    debug_source]))
  /\ add_missing_comma "elasticsearch-dsl (>=7.2.0<8.0.0)"
       = "elasticsearch-dsl (>=7.2.0,<8.0.0)"
  /\ (forall (err : Pep508Error) (correct : Requirement),
        parse "elasticsearch-dsl (>=7.2.0<8.0.0)" = inr err ->
        parse "elasticsearch-dsl (>=7.2.0,<8.0.0)" = inl correct ->
        parse_requirement_fixup parse "elasticsearch-dsl (>=7.2.0<8.0.0)"
                                "django-elasticsearch-dsl 7.2.2"
          = (inl correct,
             ["Requirement `elasticsearch-dsl (>=7.2.0<8.0.0)` for django-elasticsearch-dsl 7.2.2 is invalid (missing comma)"])
        /\ fst (parse_requirement_fixup parse
                  "elasticsearch-dsl (>=7.2.0<8.0.0)"
                  "django-elasticsearch-dsl 7.2.2")
           = fst (parse_requirement_fixup parse
                    "elasticsearch-dsl (>=7.2.0,<8.0.0)"
                    "django-elasticsearch-dsl 7.2.2")).
Proof.
  repeat apply conj.
  - intros requirement debug_source. unfold parse_requirement_fixup.
    destruct (parse requirement); [done|].
    by destruct (parse (add_missing_comma requirement)).
  - apply warning_names_both.
  - apply comma_between_adjacent_bounds.
  - intros s. apply repair_bounds_unchanged.
  - apply fixup_adjacent_bounds.
  - reflexivity.
  - intros err correct Hwrong Hcorrect.
    assert (Hfix : parse_requirement_fixup parse
                     "elasticsearch-dsl (>=7.2.0<8.0.0)"
                     "django-elasticsearch-dsl 7.2.2"
                   = (inl correct,
                      ["Requirement `elasticsearch-dsl (>=7.2.0<8.0.0)` for django-elasticsearch-dsl 7.2.2 is invalid (missing comma)"])).
    { exact (fixup_adjacent_bounds "elasticsearch-dsl (" ">=" "7.2."
               "0"%char "<8.0.0)" "django-elasticsearch-dsl 7.2.2"
               err correct eq_refl eq_refl ltac:(discriminate) eq_refl
               eq_refl eq_refl eq_refl Hwrong Hcorrect). }
    rewrite Hfix. by rewrite (fixup_valid _ _ correct Hcorrect).
Qed.

Lemma accepted_spelling_parses (requirement debug_source : string) :
  parse_requirement_fixup parse (accepted_spelling parse requirement)
                          debug_source
    = (fst (parse_requirement_fixup parse requirement debug_source), []).
Proof.
  unfold accepted_spelling, parse_requirement_fixup.
  destruct (parse requirement) as [parsed|err] eqn:Hraw.
  - by rewrite Hraw.
  - destruct (parse (add_missing_comma requirement)) as [parsed|err'] eqn:Hfix.
    + by rewrite Hfix.
    + by rewrite Hraw, Hfix.
Qed.

Lemma accepted_spelling_idempotent (requirement : string) :
  accepted_spelling parse (accepted_spelling parse requirement)
    = accepted_spelling parse requirement.
Proof.
  unfold accepted_spelling.
  destruct (parse requirement) as [parsed|err] eqn:Hraw.
  - by rewrite Hraw.
  - destruct (parse (add_missing_comma requirement)) as [parsed|err'] eqn:Hfix.
    + by rewrite Hfix.
    + by rewrite Hraw, Hfix.
Qed.

(** C7: a string that parses strictly comes back as its own parse, with no
    warning.  The repair is idempotent on every string.  Running the
    fixup again on the spelling the first run parsed gives the same
    result for every string, valid, repairable or neither, with no
    warning, and that spelling is its own accepted spelling.  For a
    string that only the repair makes parse, the repaired string and the
    requirement's canonical string form (when that parses back to it)
    both give the same requirement again, without a warning. *)
Theorem fixup_stability (to_string : Requirement -> string) :
  (forall (requirement debug_source : string) (parsed : Requirement),
      parse requirement = inl parsed ->
      parse_requirement_fixup parse requirement debug_source
        = (inl parsed, []))
  /\ (forall requirement : string,
        add_missing_comma (add_missing_comma requirement)
          = add_missing_comma requirement)
  /\ (forall requirement debug_source : string,
        parse_requirement_fixup parse (accepted_spelling parse requirement)
                                debug_source
          = (fst (parse_requirement_fixup parse requirement debug_source), [])
        /\ accepted_spelling parse (accepted_spelling parse requirement)
           = accepted_spelling parse requirement)
  /\ (forall (requirement debug_source : string) (err : Pep508Error)
             (parsed : Requirement),
        parse requirement = inr err ->
        parse (add_missing_comma requirement) = inl parsed ->
        fst (parse_requirement_fixup parse requirement debug_source)
          = inl parsed
        /\ accepted_spelling parse requirement = add_missing_comma requirement
        /\ parse_requirement_fixup parse (add_missing_comma requirement)
                                   debug_source = (inl parsed, [])
        /\ (parse (to_string parsed) = inl parsed ->
            parse_requirement_fixup parse (to_string parsed) debug_source
              = (inl parsed, []))).
Proof.
  split; [apply fixup_valid|].
  split; [apply add_missing_comma_idempotent|].
  split.
  - intros requirement debug_source.
    split; [apply accepted_spelling_parses|apply accepted_spelling_idempotent].
  - intros requirement debug_source err parsed Hraw Hfixed.
    split; [|split; [|split]].
    + by rewrite (fixup_repaired _ _ err parsed Hraw Hfixed).
    + unfold accepted_spelling. by rewrite Hraw, Hfixed.
    + by apply fixup_valid.
    + apply fixup_valid.
Qed.

End FixupFacts.

(** ** The order of a resolution *)








(** ** Closed instances *)

(** The fixup with the reference parser, on a requirement whose name
    ends in a digit and on the requirement of
    [test_parse_requirement_fixup]. *)
Lemma fixup_repairs_missing_comma_witness :
  parse_requirement_fixup Pep508.parse "Jinja2>=2.0<3.0" "Flask 1.0"
    = (inl {| Pep508.name := "Jinja2";
              Pep508.version_or_url := [(">=", "2.0"); ("<", "3.0")] |},
       ["Requirement `Jinja2>=2.0<3.0` for Flask 1.0 is invalid (missing comma)"])
  /\ parse_requirement_fixup Pep508.parse "elasticsearch-dsl (>=7.2.0<8.0.0)"
                             "django-elasticsearch-dsl 7.2.2"
     = (inl {| Pep508.name := "elasticsearch-dsl";
               Pep508.version_or_url := [(">=", "7.2.0"); ("<", "8.0.0")] |},
        ["Requirement `elasticsearch-dsl (>=7.2.0<8.0.0)` for django-elasticsearch-dsl 7.2.2 is invalid (missing comma)"])
  /\ fst (parse_requirement_fixup Pep508.parse
            "elasticsearch-dsl (>=7.2.0<8.0.0)"
            "django-elasticsearch-dsl 7.2.2")
     = fst (parse_requirement_fixup Pep508.parse
              "elasticsearch-dsl (>=7.2.0,<8.0.0)"
              "django-elasticsearch-dsl 7.2.2").
Proof.
  split.
  - exact (proj1 (proj2 (proj2 (proj2 (proj2
             (fixup_repairs_missing_comma Pep508.parse)))))
             "Jinja2" ">=" "2." "0"%char "<3.0" "Flask 1.0"
             "invalid version specifier"
             {| Pep508.name := "Jinja2";
                Pep508.version_or_url := [(">=", "2.0"); ("<", "3.0")] |}
             eq_refl eq_refl ltac:(discriminate) eq_refl eq_refl eq_refl
             eq_refl eq_refl eq_refl).
  - apply (proj2 (proj2 (proj2 (proj2 (proj2 (proj2
             (fixup_repairs_missing_comma Pep508.parse))))))
             "invalid version specifier");
      vm_compute; reflexivity.
Defined.

Lemma fixup_stability_witness :
  fst (parse_requirement_fixup Pep508.parse
         "elasticsearch-dsl (>=7.2.0<8.0.0)" "django-elasticsearch-dsl 7.2.2")
    = inl {| Pep508.name := "elasticsearch-dsl";
             Pep508.version_or_url := [(">=", "7.2.0"); ("<", "8.0.0")] |}
  /\ Resolve.accepted_spelling Pep508.parse
       "elasticsearch-dsl (>=7.2.0<8.0.0)"
     = add_missing_comma "elasticsearch-dsl (>=7.2.0<8.0.0)"
  /\ parse_requirement_fixup Pep508.parse
       (add_missing_comma "elasticsearch-dsl (>=7.2.0<8.0.0)")
       "django-elasticsearch-dsl 7.2.2"
     = (inl {| Pep508.name := "elasticsearch-dsl";
               Pep508.version_or_url := [(">=", "7.2.0"); ("<", "8.0.0")] |},
        [])
  /\ (Pep508.parse "elasticsearch-dsl >=7.2.0, <8.0.0"
        = inl {| Pep508.name := "elasticsearch-dsl";
                 Pep508.version_or_url := [(">=", "7.2.0"); ("<", "8.0.0")] |} ->
      parse_requirement_fixup Pep508.parse "elasticsearch-dsl >=7.2.0, <8.0.0"
                              "django-elasticsearch-dsl 7.2.2"
        = (inl {| Pep508.name := "elasticsearch-dsl";
                  Pep508.version_or_url := [(">=", "7.2.0"); ("<", "8.0.0")] |},
           [])).
Proof.
  apply (proj2 (proj2 (proj2 (fixup_stability Pep508.parse Pep508.to_string)))
           "elasticsearch-dsl (>=7.2.0<8.0.0)" "django-elasticsearch-dsl 7.2.2"
           "invalid version specifier"
           {| Pep508.name := "elasticsearch-dsl";
              Pep508.version_or_url := [(">=", "7.2.0"); ("<", "8.0.0")] |});
    vm_compute; reflexivity.
Defined.

(** [flat-1.0.tar.gz] unpacks to two entries. *)
Lemma unpack_must_yield_one_entry_witness :
  exists t : list Event,
    build_sdist_impl Demo.world (Demo.file "flat-1.0") "/tmp/tmpsdist"
                     (Demo.start (Demo.empty_cache true true))
      = (Raise ValueError,
         {| cache := Demo.empty_cache true true; trace := [] ++ t |})
    /\ List.filter is_run t = []
    /\ last t = Some (Log ERROR
                        "[PosixPath('/tmp/tmpsdist/extracted/setup.py'), PosixPath('/tmp/tmpsdist/extracted/flat')]").
Proof.
  apply (unpack_must_yield_one_entry Demo.world (Demo.file "flat-1.0")
           "/tmp/tmpsdist" (Demo.start (Demo.empty_cache true true))
           ["setup.py"; "flat"]);
    [reflexivity | vm_compute; reflexivity | discriminate].
Defined.

(** [broken-1.0.tar.gz]: the second hook exits with status 1.  Behind a
    front end that wraps the error, as pypa/build does, the wrapper comes
    out and the captured output is lost; behind a front end that lets the
    error through, the [RuntimeError] with the captured output is
    raised. *)
Lemma hook_failure_is_reported_only_if_passed_through_witness :
  fst (build_sdist_impl Demo.world (Demo.file "broken-1.0") "/tmp/tmpsdist"
                        (Demo.start (Demo.empty_cache true true)))
    = Raise (Exception "BuildBackendException")
  /\ exists msg : string,
       fst (build_sdist_impl DemoTest.world (Demo.file "broken-1.0")
                             "/tmp/tmpsdist"
                             (Demo.start (Demo.empty_cache true true)))
         = Raise (RuntimeError msg None)
       /\ includes msg "broken-1.0.tar.gz"
       /\ includes msg "requires: wheel;running dist_info;"
       /\ includes msg "error: no setup script;".
Proof.
  split.
  - apply (proj2 (hook_failure_is_reported_only_if_passed_through Demo.world
                    (Demo.file "broken-1.0") "/tmp/tmpsdist" "broken-1.0"
                    (Demo.start (Demo.empty_cache true true))
                    [{| call_cmd := ["python"; "get_requires_for_build_wheel"];
                        call_cwd := Some "/tmp/tmpsdist/extracted/broken-1.0";
                        call_extra_environ := None |}]
                    []
                    {| call_cmd := ["python"; "prepare_metadata_for_build_wheel"];
                       call_cwd := Some "/tmp/tmpsdist/extracted/broken-1.0";
                       call_extra_environ :=
                         Some {[ "PEP517_BUILD_BACKEND"
                                   := "setuptools.build_meta" ]} |}
                    eq_refl eq_refl eq_refl eq_refl eq_refl)).
    intros cmd rc. discriminate.
  - destruct (proj1 (hook_failure_is_reported_only_if_passed_through
                       DemoTest.world
                       (Demo.file "broken-1.0") "/tmp/tmpsdist" "broken-1.0"
                       (Demo.start (Demo.empty_cache true true))
                       [{| call_cmd := ["python"; "get_requires_for_build_wheel"];
                           call_cwd := Some "/tmp/tmpsdist/extracted/broken-1.0";
                           call_extra_environ := None |}]
                       []
                       {| call_cmd := ["python"; "prepare_metadata_for_build_wheel"];
                          call_cwd := Some "/tmp/tmpsdist/extracted/broken-1.0";
                          call_extra_environ :=
                            Some {[ "PEP517_BUILD_BACKEND"
                                      := "setuptools.build_meta" ]} |}
                       eq_refl eq_refl eq_refl eq_refl eq_refl)
                ["python"; "prepare_metadata_for_build_wheel"] 1 eq_refl)
      as (msg & Hraise & _ & Hfile & Hout & Herr).
    exists msg. split; [exact Hraise|]. split; [exact Hfile|].
    split; [exact Hout | exact Herr].
Defined.

(** The two hook subprocesses of a build of [demo-1.0.tar.gz]. *)
Lemma runner_environment_and_capture_witness :
  List.filter is_run
    (trace (snd (build_sdist_impl Demo.world (Demo.file "demo-1.0")
                   "/tmp/tmpsdist"
                   {| cache := cache (Demo.start (Demo.empty_cache true true));
                      trace := [] |})))
  = map (launch Demo.world)
        (launched Demo.world
           (calls (ProjectBuilder_metadata_path Demo.world
                     (joinpath (joinpath "/tmp/tmpsdist" "extracted") "demo-1.0")
                     (joinpath "/tmp/tmpsdist" "metadata")))).
Proof.
  apply (proj2 (proj2 (runner_environment_and_capture Demo.world))
           (Demo.file "demo-1.0") "/tmp/tmpsdist" "demo-1.0"
           (Demo.start (Demo.empty_cache true true)));
    [reflexivity | vm_compute; reflexivity].
Defined.

(** [twice-1.0.tar.gz] builds two [.dist-info] entries; [demo-1.0.tar.gz]
    builds one, next to a log file. *)
Lemma dist_info_must_be_unique_witness :
  fst (build_sdist_impl Demo.world (Demo.file "twice-1.0") "/tmp/tmpsdist"
                        (Demo.start (Demo.empty_cache true true)))
    = Raise ValueError
  /\ exists (d : string) (listing : list string) (capture : Capture)
            (evs : list Event) (x : string),
       unpack_archive Demo.world (Demo.file "demo-1.0") = Ok [d]
       /\ metadata_path Demo.world
            (ProjectBuilder_metadata_path Demo.world
               (joinpath (joinpath "/tmp/tmpsdist" "extracted") d)
               (joinpath "/tmp/tmpsdist" "metadata"))
            ProjectHooksCaptureOutput = (Ok listing, capture, evs)
       /\ List.filter is_dist_info listing = [x]
       /\ Distribution_metadata_json Demo.world
            (joinpath (joinpath "/tmp/tmpsdist" "metadata") x)
          = Ok "name: demo, version: 1.0".
Proof.
  split.
  - eapply (proj2 (dist_info_must_be_unique Demo.world (Demo.file "twice-1.0")
                     "/tmp/tmpsdist" (Demo.start (Demo.empty_cache true true)))
              "twice-1.0" ["a-1.0.dist-info"; "b-1.0.dist-info"]);
      [reflexivity | vm_compute; reflexivity | vm_compute; reflexivity
      | vm_compute; discriminate].
  - apply (proj1 (dist_info_must_be_unique Demo.world (Demo.file "demo-1.0")
                    "/tmp/tmpsdist" (Demo.start (Demo.empty_cache true true)))).
    vm_compute. reflexivity.
Defined.

(** [corrupt-1.0.tar.gz] builds, and its metadata does not parse. *)
Lemma parse_failure_is_reported_witness :
  fst (build_sdist Demo.world (Demo.file "corrupt-1.0")
                   (Demo.start (Demo.empty_cache true true)))
    = Raise (RuntimeError
               "Failed to parse sdist built metadata for corrupt-1.0.tar.gz, this is most likely a bug"
               (Some (Exception "invalid metadata"))).
Proof.
  apply (proj1 (proj2 (parse_failure_is_reported Demo.world
                         (Demo.file "corrupt-1.0")
                         (Demo.start (Demo.empty_cache true true))
                         (Exception "invalid metadata")))
           "not a record");
    vm_compute; reflexivity.
Defined.


Lemma cached_record_equals_built_record_witness :
  exists j : string,
    fst (build_sdist_impl Demo.world (Demo.file "demo-1.0")
           (mkdtemp Demo.world)
           {| cache := Demo.empty_cache true true; trace := [] |}) = Ok j
    /\ entries (cache (snd (build_sdist Demo.world (Demo.file "demo-1.0")
                              (Demo.start (Demo.empty_cache true true)))))
         !! ("sdist_build_metadata", cache_key (Demo.file "demo-1.0"))
       = Some (json_dumps Demo.world j)
    /\ parse_metadata Demo.world (json_dumps Demo.world j)
       = Ok "{name: demo, version: 1.0}"
    /\ (forall s2 : St,
          cache_hit (cache s2) (Demo.file "demo-1.0")
            = Some (json_dumps Demo.world j) ->
          fst (build_sdist Demo.world (Demo.file "demo-1.0") s2)
            = Ok "{name: demo, version: 1.0}")
    /\ (true = true -> json_dumps Demo.world j <> "" ->
        cache_hit (cache (snd (build_sdist Demo.world (Demo.file "demo-1.0")
                                 (Demo.start (Demo.empty_cache true true)))))
                  (Demo.file "demo-1.0")
          = Some (json_dumps Demo.world j)).
Proof.
  apply (cached_record_equals_built_record Demo.world (Demo.file "demo-1.0")
           (Demo.start (Demo.empty_cache true true)));
    [reflexivity | reflexivity | vm_compute; reflexivity].
Defined.


(** * Further facts about [sdist.py] *)

Import Observe.

Section SdistMore.
Context {Json Metadata : Type}.
Variable W : World Json Metadata.

Lemma build_sdist_impl_no_tempdir (file : File) (tempdir : string) (s : St) :
  List.filter is_tempdir
    (trace (snd (build_sdist_impl W file tempdir
                   {| cache := cache s; trace := [] |}))) = [].
Proof.
  unfold build_sdist_impl. run_monad.
  destruct (stream_get W file); simpl; [done|].
  destruct (unpack_archive W file) as [top|e]; simpl; [|done].
  destruct top as [|d [|d' top]]; simpl; [done| |done].
  pose proof (metadata_path_launched W
                (ProjectBuilder_metadata_path W
                   (joinpath (joinpath tempdir "extracted") d)
                   (joinpath tempdir "metadata"))
                ProjectHooksCaptureOutput) as H.
  destruct (metadata_path W _ _) as [[r capture] evs]. destruct H as (-> & _).
  assert (Hno : forall cs, List.filter is_tempdir (map (launch W) cs) = []).
  { induction cs as [|c cs IH]; simpl; done. }
  destruct r as [listing|e]; [|destruct e]; simpl;
    try destruct (str_truthy (stderr capture)); simpl;
    try destruct (List.filter is_dist_info listing) as [|x [|y l]]; simpl;
    rewrite <- ?app_assoc, ?List.filter_app, ?Hno; done.
Qed.

Lemma metadata_path_all_succeed (h : Hooks) (self : Capture) :
  forallb (succeeds W) (calls h) = true ->
  metadata_path W h self =
    (hooks_end h,
     {| stdout := stdout self +:+ captured W cp_stdout (calls h);
        stderr := stderr self +:+ captured W cp_stderr (calls h) |},
     map (launch W) (calls h)).
Proof.
  revert self. induction h as [listing|e|cmd cwd extra k IH]; intros self; simpl.
  - intros _. rewrite !str_app_nil_r. by destruct self.
  - intros _. rewrite !str_app_nil_r. by destruct self.
  - intros [Hc Hk]%andb_true_iff. unfold succeeds, outcome in Hc. simpl in Hc.
    unfold check_returncode. rewrite Hc. rewrite (IH _ Hk). simpl.
    by rewrite !str_app_assoc.
Qed.

Lemma build_sdist_driver_runs (file : File) (s : St) :
  exists t : list Event,
    trace (snd (build_sdist W file s)) = trace s ++ t
    /\ driver_runs t = match cache_hit (cache s) file with
                       | Some _ => 0%nat
                       | None => 1%nat
                       end.
Proof.
  destruct (cache_hit (cache s) file) as [v|] eqn:Hhit.
  - rewrite (build_sdist_hit W _ _ _ Hhit). simpl.
    destruct (parse_metadata W v); simpl; eexists; done.
  - rewrite (build_sdist_miss W _ _ Hhit). simpl.
    pose proof (build_sdist_impl_one_download W file (mkdtemp W) s) as Hone.
    destruct (build_sdist_impl W file (mkdtemp W) _) as [[j|e] s1]; simpl in *.
    + destruct (parse_metadata W (json_dumps W j)); simpl; eexists;
        (split; [reflexivity|]); unfold driver_runs in *; simpl;
        rewrite ?List.filter_app, ?length_app; simpl; lia.
    + eexists; (split; [reflexivity|]); unfold driver_runs in *; simpl;
        rewrite ?List.filter_app, ?length_app; simpl; lia.
Qed.

(** X1: a call of [build_sdist] opens exactly one download when the cache
    does not answer, whatever the outcome of the build, and none when it
    does. *)
Theorem build_sdist_downloads_once_per_miss (file : File) (s : St) :
  exists t : list Event,
    trace (snd (build_sdist W file s)) = trace s ++ t
    /\ driver_runs t = match cache_hit (cache s) file with
                       | Some _ => 0%nat
                       | None => 1%nat
                       end.
Proof. apply build_sdist_driver_runs. Qed.

(** X2: on a miss the temporary directory is created before the first
    effect of [build_sdist_impl] and removed after its last one, whether
    the build returned or raised; nothing is downloaded, unpacked or run
    after the removal; a call answered from the cache creates no
    directory. *)
Theorem tempdir_released_on_every_path (file : File) (s : St) :
  (cache_hit (cache s) file = None ->
   exists rest : list Event,
     let inner := trace (snd (build_sdist_impl W file (mkdtemp W)
                                {| cache := cache s; trace := [] |})) in
     trace (snd (build_sdist W file s))
       = trace s ++ TempdirCreate (mkdtemp W) :: inner
                 ++ TempdirCleanup (mkdtemp W) :: rest
     /\ List.filter is_tempdir inner = []
     /\ List.filter is_tempdir rest = []
     /\ List.filter is_http_get rest = []
     /\ List.filter is_unpack rest = []
     /\ List.filter is_run rest = [])
  /\ (forall v : string,
        cache_hit (cache s) file = Some v ->
        exists t : list Event,
          trace (snd (build_sdist W file s)) = trace s ++ t
          /\ List.filter is_tempdir t = []).
Proof.
  split.
  - intros Hmiss. rewrite (build_sdist_miss W _ _ Hmiss). simpl.
    pose proof (build_sdist_impl_no_tempdir file (mkdtemp W) s) as Hno.
    destruct (build_sdist_impl W file (mkdtemp W) _) as [[j|e] s1]; simpl in *.
    + destruct (parse_metadata W (json_dumps W j)); simpl.
      * eexists [_]. rewrite <- !app_assoc. simpl. done.
      * exists []. done.
    + exists []. done.
  - intros v Hhit. rewrite (build_sdist_hit W _ _ _ Hhit). simpl.
    destruct (parse_metadata W v); simpl; eexists; done.
Qed.

(** X3: when the build raises, [build_sdist] raises the same exception,
    the cache is left as it was, and the next call for the file builds
    again. *)
Theorem failed_build_stores_nothing (file : File) (s : St) (e : exn) :
  cache_hit (cache s) file = None ->
  fst (build_sdist_impl W file (mkdtemp W)
         {| cache := cache s; trace := [] |}) = Raise e ->
  fst (build_sdist W file s) = Raise e
  /\ cache (snd (build_sdist W file s)) = cache s
  /\ exists t : list Event,
       trace (snd (build_sdist W file (snd (build_sdist W file s))))
         = trace (snd (build_sdist W file s)) ++ t
       /\ driver_runs t = 1%nat.
Proof.
  intros Hmiss Hfail.
  assert (Hres : fst (build_sdist W file s) = Raise e
                 /\ cache (snd (build_sdist W file s)) = cache s).
  { rewrite (build_sdist_miss W _ _ Hmiss). simpl. by rewrite Hfail. }
  destruct Hres as [Hfst Hcache]. split; [done|]. split; [done|].
  destruct (build_sdist_driver_runs file
              (snd (build_sdist W file s))) as (t & Ht & Hruns).
  exists t. split; [done|]. by rewrite Hcache, Hmiss in Hruns.
Qed.

(** X4: the serialised record is stored before it is parsed: when it
    does not parse, a readable and writable cache holds it all the same,
    and the next call fails with the same error from the cache, its only
    effect being the log line of the hit. *)
Theorem unparseable_record_is_cached (file : File) (s : St) (j : Json)
    (e : exn) :
  cache_hit (cache s) file = None ->
  read (cache s) = true ->
  write (cache s) = true ->
  fst (build_sdist_impl W file (mkdtemp W)
         {| cache := cache s; trace := [] |}) = Ok j ->
  json_dumps W j <> "" ->
  parse_metadata W (json_dumps W j) = Raise e ->
  let s1 := snd (build_sdist W file s) in
  fst (build_sdist W file s)
    = Raise (RuntimeError (failed_to_parse file) (Some e))
  /\ cache_hit (cache s1) file = Some (json_dumps W j)
  /\ build_sdist W file s1
     = (Raise (RuntimeError (failed_to_parse file) (Some e)),
        {| cache := cache s1;
           trace := trace s1 ++
             [Log INFO ("Using cached json metadata for " +:+ filename file)] |}).
Proof.
  intros Hmiss Hr Hw Hbuilt Hne Hparse s1.
  assert (Hfirst : build_sdist W file s
    = (Raise (RuntimeError (failed_to_parse file) (Some e)),
       {| cache := cache_set (cache s) "sdist_build_metadata" (cache_key file)
                             (json_dumps W j);
          trace := trace s
            ++ TempdirCreate (mkdtemp W)
               :: trace (snd (build_sdist_impl W file (mkdtemp W)
                                {| cache := cache s; trace := [] |}))
               ++ [TempdirCleanup (mkdtemp W)] |})).
  { rewrite (build_sdist_miss W _ _ Hmiss). simpl. by rewrite Hbuilt, Hparse. }
  assert (Hhit : cache_hit (cache s1) file = Some (json_dumps W j)).
  { subst s1. rewrite Hfirst. simpl. by apply cache_hit_after_set. }
  split; [by rewrite Hfirst|]. split; [done|].
  rewrite (build_sdist_hit W _ _ _ Hhit). simpl. by rewrite Hparse.
Qed.

(** X5: [build_sdist] never changes the modes of the cache nor any entry
    other than the one of its file name, and a cache that is not writable
    comes back unchanged. *)
Theorem build_sdist_cache_frame (file : File) (s : St) :
  let c' := cache (snd (build_sdist W file s)) in
  read c' = read (cache s)
  /\ write c' = write (cache s)
  /\ (forall k : string * string,
        k <> ("sdist_build_metadata", cache_key file) ->
        entries c' !! k = entries (cache s) !! k)
  /\ (write (cache s) = false -> c' = cache s).
Proof.
  assert (Hset : forall v,
    let c' := cache_set (cache s) "sdist_build_metadata" (cache_key file) v in
    read c' = read (cache s)
    /\ write c' = write (cache s)
    /\ (forall k : string * string,
          k <> ("sdist_build_metadata", cache_key file) ->
          entries c' !! k = entries (cache s) !! k)
    /\ (write (cache s) = false -> c' = cache s)).
  { intros v. unfold cache_set. destruct (write (cache s)) eqn:Hw; simpl.
    - repeat split; try done. intros k Hk. by rewrite lookup_insert_ne.
    - done. }
  simpl. destruct (cache_hit (cache s) file) as [v|] eqn:Hhit.
  - rewrite (build_sdist_hit W _ _ _ Hhit). simpl.
    by destruct (parse_metadata W v).
  - rewrite (build_sdist_miss W _ _ Hhit). simpl.
    destruct (build_sdist_impl W file (mkdtemp W) _) as [[j|e] s1]; simpl.
    + destruct (parse_metadata W (json_dumps W j)); simpl; apply Hset.
    + done.
Qed.

(** X6: an error of the download is raised as it is after the request,
    with nothing unpacked; an error of the unpacking is raised as it is,
    with no hook run. *)
Theorem download_or_unpack_error_stops_the_build (file : File)
    (tempdir : string) (s : St) (e : exn) :
  (stream_get W file = Some e ->
   build_sdist_impl W file tempdir s =
     (Raise e,
      {| cache := cache s;
         trace := trace s ++
           [Log INFO ("Downloading " +:+ filename file);
            HttpGet (url file) (user_agent W)
                    (joinpath tempdir (filename file))] |}))
  /\ (stream_get W file = None ->
      unpack_archive W file = Raise e ->
      build_sdist_impl W file tempdir s =
        (Raise e,
         {| cache := cache s;
            trace := trace s ++
              [Log INFO ("Downloading " +:+ filename file);
               HttpGet (url file) (user_agent W)
                       (joinpath tempdir (filename file));
               Log INFO ("Extracting " +:+ filename file);
               UnpackArchive (joinpath tempdir (filename file))
                             (joinpath tempdir "extracted")] |})).
Proof.
  split.
  - intros Hget. unfold build_sdist_impl. run_monad. rewrite Hget. simpl.
    by rewrite <- !app_assoc.
  - intros Hget Hun. unfold build_sdist_impl. run_monad. rewrite Hget, Hun.
    simpl. by rewrite <- !app_assoc.
Qed.

(** X7: when every hook subprocess succeeds and the build front end
    raises by itself, only a [CalledProcessError] is turned into the
    "Failed to build metadata" [RuntimeError]; any other exception comes
    out of [build_sdist_impl] unchanged. *)
Theorem only_subprocess_failures_are_wrapped (file : File)
    (tempdir d : string) (s : St) (e : exn) :
  stream_get W file = None ->
  unpack_archive W file = Ok [d] ->
  let h := ProjectBuilder_metadata_path W
             (joinpath (joinpath tempdir "extracted") d)
             (joinpath tempdir "metadata") in
  forallb (succeeds W) (calls h) = true ->
  hooks_end h = Raise e ->
  fst (build_sdist_impl W file tempdir s) =
    if is_CalledProcessError e
    then Raise (RuntimeError
                  (failed_to_build W file e
                     {| stdout := captured W cp_stdout (calls h);
                        stderr := captured W cp_stderr (calls h) |})
                  None)
    else Raise e.
Proof.
  intros Hget Hun h Hall Hend.
  rewrite (build_sdist_impl_built W _ _ _ _ Hget Hun). simpl. fold h.
  rewrite (metadata_path_all_succeed _ _ Hall), Hend. simpl.
  by destruct e.
Qed.

(** X8: after hooks that all succeed, [build_sdist_impl] logs one
    WARNING with the stripped stderr exactly when the captured stderr is
    not empty; when the front end did not return, no WARNING is logged. *)
Theorem stderr_is_logged_after_a_successful_build (file : File)
    (tempdir d : string) (s : St) :
  stream_get W file = None ->
  unpack_archive W file = Ok [d] ->
  let h := ProjectBuilder_metadata_path W
             (joinpath (joinpath tempdir "extracted") d)
             (joinpath tempdir "metadata") in
  let t := trace (snd (build_sdist_impl W file tempdir
                         {| cache := cache s; trace := [] |})) in
  (forall listing : list string,
      forallb (succeeds W) (calls h) = true ->
      hooks_end h = Ok listing ->
      List.filter is_warning t =
        if str_truthy (captured W cp_stderr (calls h))
        then [Log WARNING
                (messages_from_building file
                   {| stdout := captured W cp_stdout (calls h);
                      stderr := captured W cp_stderr (calls h) |})]
        else [])
  /\ (forall r : result (list string),
        fst (fst (metadata_path W h ProjectHooksCaptureOutput)) = r ->
        (forall listing, r <> Ok listing) ->
        List.filter is_warning t = []).
Proof.
  intros Hget Hun h t.
  assert (Hno : forall cs post,
             List.filter is_warning (map (launch W) cs ++ post)
             = List.filter is_warning post).
  { intros cs post. induction cs as [|c cs IH]; simpl; done. }
  split.
  - intros listing Hall Hend. subst t.
    rewrite (build_sdist_impl_built W _ _ _ _ Hget Hun). simpl. fold h.
    rewrite (metadata_path_all_succeed _ _ Hall), Hend. simpl.
    rewrite Hno, !str_app_nil_l.
    destruct (str_truthy (captured W cp_stderr (calls h))); simpl; done.
  - intros r Hr Hfail. subst t.
    rewrite (build_sdist_impl_built W _ _ _ _ Hget Hun). simpl. fold h.
    pose proof (metadata_path_launched W h ProjectHooksCaptureOutput) as H.
    destruct (metadata_path W h _) as [[r' capture] evs].
    destruct H as (-> & _). simpl in Hr. subst r'.
    destruct r as [listing|e]; [by destruct (Hfail listing)|].
    destruct e; simpl; rewrite <- (app_nil_r (map _ _)), Hno; done.
Qed.

Lemma cache_hit_same_filename (c : Cache) (file file' : File) :
  filename file' = filename file -> cache_hit c file' = cache_hit c file.
Proof. intros H. unfold cache_hit, cache_key. by rewrite H. Qed.

(** X9: the cache key is the file name alone (the TODO of
    [build_sdist]): once a call has returned a record against a readable
    and writable cache, a file with the same name and any URL gets that
    record with no download. *)
Theorem same_filename_shares_the_entry (file file' : File) (s s1 : St)
    (parsed : Metadata) :
  filename file' = filename file ->
  read (cache s) = true ->
  write (cache s) = true ->
  (forall j : Json, json_dumps W j <> "") ->
  build_sdist W file s = (Ok parsed, s1) ->
  exists t : list Event,
    build_sdist W file' s1 =
      (Ok parsed, {| cache := cache s1; trace := trace s1 ++ t |})
    /\ driver_runs t = 0%nat.
Proof.
  intros Hname Hr Hw Hdumps Hfirst.
  assert (Hhit' : exists v : string,
             cache_hit (cache s1) file' = Some v
             /\ parse_metadata W v = Ok parsed).
  { rewrite (cache_hit_same_filename _ _ _ Hname).
    destruct (cache_hit (cache s) file) as [v|] eqn:Hhit.
    - rewrite (build_sdist_hit W _ _ _ Hhit) in Hfirst. simpl in Hfirst.
      destruct (parse_metadata W v) as [p|e] eqn:Hparse; [|done].
      injection Hfirst as -> <-. by exists v.
    - rewrite (build_sdist_miss W _ _ Hhit) in Hfirst. simpl in Hfirst.
      destruct (build_sdist_impl W file (mkdtemp W) _) as [[j|e] s'];
        simpl in Hfirst; [|done].
      destruct (parse_metadata W (json_dumps W j)) as [p|e] eqn:Hparse; [|done].
      injection Hfirst as -> <-. exists (json_dumps W j). simpl.
      split; [by apply cache_hit_after_set|done]. }
  destruct Hhit' as (v & Hhit' & Hparse).
  rewrite (build_sdist_hit W _ _ _ Hhit'). simpl. rewrite Hparse.
  eexists. split; [reflexivity|done].
Qed.

(** X10: an entry holding the empty string is falsy, so the call builds
    as on a miss, and a build that returns overwrites the entry in a
    writable cache. *)
Theorem empty_cached_value_is_rebuilt (file : File) (s : St) :
  cache_get (cache s) "sdist_build_metadata" (cache_key file) = Some "" ->
  cache_hit (cache s) file = None
  /\ (exists t : list Event,
        trace (snd (build_sdist W file s)) = trace s ++ t
        /\ driver_runs t = 1%nat)
  /\ (forall j : Json,
        write (cache s) = true ->
        fst (build_sdist_impl W file (mkdtemp W)
               {| cache := cache s; trace := [] |}) = Ok j ->
        entries (cache (snd (build_sdist W file s)))
          !! ("sdist_build_metadata", cache_key file)
        = Some (json_dumps W j)).
Proof.
  intros Hget.
  assert (Hmiss : cache_hit (cache s) file = None).
  { unfold cache_hit. by rewrite Hget. }
  split; [done|]. split.
  - destruct (build_sdist_driver_runs file s) as (t & Ht & Hruns).
    rewrite Hmiss in Hruns. by exists t.
  - intros j Hw Hbuilt. rewrite (build_sdist_miss W _ _ Hmiss). simpl.
    rewrite Hbuilt.
    destruct (parse_metadata W (json_dumps W j)); simpl;
      unfold cache_set; rewrite Hw; simpl; apply lookup_insert_eq.
Qed.

(** X11: the environment of a hook subprocess has the variables of
    [os.environ] and of [extra_environ] and no others; a variable that
    [extra_environ] does not name keeps its inherited value; [None] and
    the empty dict give [os.environ] itself. *)
Theorem runner_env_keeps_inherited_variables
    (extra_environ : option environ) :
  dom (runner_env W extra_environ)
    = dom (os_environ W) ∪ dom (default ∅ extra_environ)
  /\ (forall k : string,
        default ∅ extra_environ !! k = None ->
        runner_env W extra_environ !! k = os_environ W !! k)
  /\ runner_env W None = os_environ W
  /\ runner_env W (Some ∅) = os_environ W.
Proof.
  split; [|split; [|split]].
  - unfold runner_env. destruct extra_environ as [extra|]; simpl.
    + unfold dict_truthy. case_bool_decide as Hempty; simpl.
      * subst extra. by rewrite dom_empty_L, (right_id_L ∅ (∪)).
      * rewrite dom_union_L. apply (comm_L (∪)).
    + by rewrite dom_empty_L, (right_id_L ∅ (∪)).
  - intros k Hk. rewrite runner_env_lookup.
    destruct extra_environ as [extra|]; simpl in *; [by rewrite Hk|done].
  - reflexivity.
  - reflexivity.
Qed.

End SdistMore.

(** * Facts about the snapshot mocks of [test_resolve.py] *)

Import TestResolve.

Lemma split_last_app (c : ascii) (d s : string) :
  Pathlib.split_last c s = None ->
  Pathlib.split_last c (d +:+ String c s) = Some (d, s).
Proof.
  intros Hs. induction d as [|a d IH].
  - rewrite str_app_nil_l. simpl. rewrite Hs. by rewrite Ascii.eqb_refl.
  - rewrite str_app_cons. simpl. by rewrite IH.
Qed.

(** The snapshot file of a stem without separators and dots. *)
Lemma with_suffix_joinpath (d stem suffix : string) :
  Pathlib.split_last "/"%char stem = None ->
  Pathlib.split_last "."%char stem = None ->
  Pathlib.with_suffix (joinpath d stem) suffix
    = d +:+ "/" +:+ stem +:+ suffix.
Proof.
  intros Hsep Hdot. unfold Pathlib.with_suffix, joinpath.
  change (d +:+ "/" +:+ stem) with (d +:+ String "/"%char stem).
  rewrite (split_last_app _ _ _ Hsep). unfold Pathlib.stem. by rewrite Hdot.
Qed.

Lemma snapshot_paths_differ (d : string) :
  snapshot_path d "simple" <> snapshot_path d "json_metadata".
Proof.
  unfold snapshot_path. rewrite !with_suffix_joinpath by reflexivity.
  intros H. apply (inj (String.append d)) in H. discriminate H.
Qed.

Section MockFacts.
Context {Json Metadata : Type}.
Variable C : Collaborators Json Metadata.

Ltac unfold_impl :=
  unfold httpx_mock_cache_impl; fold (snapshot_path);
  repeat match goal with
  | |- context [Pathlib.with_suffix (joinpath ?d ?s) ".json.zst"] =>
      change (Pathlib.with_suffix (joinpath d s) ".json.zst")
        with (snapshot_path d s)
  end.

(** X12: without [UPDATE_SNAPSHOTS], [httpx_mock_cache_impl] writes no
    file and sends no request, never raises an error of [requests], and a
    response it returns has status 200 and carries the truthy value its
    dict holds for the name. *)
Theorem replay_reads_only (data_dir : string) (request : Request)
    (name : string) (cache : gmap string Json) (file_stem : string)
    (h : Host Json) :
  update_snapshots h = false ->
  let out := httpx_mock_cache_impl C data_dir request name cache file_stem h in
  snd out = h
  /\ (forall e : exn, fst (fst out) <> inl (Upstream e))
  /\ (forall response : Response Json,
        fst (fst out) = inr response ->
        status_code response = 200
        /\ snd (fst out) !! name = Some (json response)
        /\ json_truthy C (json response) = true).
Proof.
  intros Hmode. unfold_impl. simpl.
  destruct (files h !! snapshot_path data_dir file_stem) as [d|] eqn:Hfile;
    rewrite ?Hmode; rewrite ?Hfile; case_bool_decide as Hempty; simpl;
    repeat (match goal with
            | |- context [match ?m !! name with _ => _ end] =>
                destruct (m !! name) as [saved|] eqn:Hname
            | |- context [if json_truthy C ?v then _ else _] =>
                destruct (json_truthy C v) eqn:Htruthy
            end; simpl);
    rewrite ?Hmode; simpl;
    (split; [done|split; [done|]]); intros response Hr; simplify_eq/=; done.
Qed.

Ltac split_impl h :=
  let Hmode := fresh "Hmode" in
  destruct (update_snapshots h) eqn:Hmode;
  repeat (match goal with
          | |- context [files h !! snapshot_path ?d ?s] =>
              let Hfile := fresh "Hfile" in
              destruct (files h !! snapshot_path d s) eqn:Hfile
          | |- context [bool_decide (?c = ∅)] =>
              let Hempty := fresh "Hempty" in
              destruct (bool_decide (c = ∅)) eqn:Hempty
          | |- context [requests_get C ?r] =>
              let Hget := fresh "Hget" in
              destruct (requests_get C r) eqn:Hget
          | |- context [match ?m !! ?k with _ => _ end] =>
              let Hname := fresh "Hname" in
              destruct (m !! k) eqn:Hname
          | |- context [if json_truthy C ?v then _ else _] =>
              let Htruthy := fresh "Htruthy" in
              destruct (json_truthy C v) eqn:Htruthy
          end; simpl; rewrite ?Hmode, ?lookup_insert_eq; simpl).

(** The call changes no snapshot file but its own, and never the mode. *)
Lemma httpx_mock_cache_impl_frame (data_dir : string) (request : Request)
    (name : string) (cache : gmap string Json) (file_stem : string)
    (h : Host Json) :
  let h' := snd (httpx_mock_cache_impl C data_dir request name cache
                                       file_stem h) in
  update_snapshots h' = update_snapshots h
  /\ forall p : string,
       p <> snapshot_path data_dir file_stem ->
       files h' !! p = files h !! p.
Proof.
  unfold_impl. simpl. split_impl h; (split; [done|]); intros p Hp;
    simpl; rewrite ?lookup_insert_ne; done.
Qed.

Lemma in_sync_preserved (data_dir : string) (request : Request)
    (name : string) (cache : gmap string Json) (file_stem : string)
    (h : Host Json) :
  in_sync cache (snapshot_path data_dir file_stem) h ->
  let out := httpx_mock_cache_impl C data_dir request name cache file_stem h in
  in_sync (snd (fst out)) (snapshot_path data_dir file_stem) (snd out).
Proof.
  unfold in_sync. intros Hsync. unfold_impl. simpl.
  destruct (decide (cache = ∅)) as [->|Hne].
  - clear Hsync. split_impl h; rewrite ?(right_id_L ∅ (∪)); simpl;
      rewrite ?lookup_insert_eq; eauto.
  - destruct Hsync as [Hs|Hs]; [done|].
    split_impl h; try (by apply bool_decide_eq_true in Hempty);
      simpl; rewrite ?lookup_insert_eq;
      first [by right | right; congruence | congruence].
Qed.

(** X13: a dict that is empty or equal to the content of its snapshot
    file is so again after [httpx_mock_cache_impl], whichever branch was
    taken. *)
Theorem cache_mirrors_snapshot (data_dir : string) (request : Request)
    (name : string) (cache : gmap string Json) (file_stem : string)
    (h : Host Json) :
  in_sync cache (snapshot_path data_dir file_stem) h ->
  let out := httpx_mock_cache_impl C data_dir request name cache file_stem h in
  in_sync (snd (fst out)) (snapshot_path data_dir file_stem) (snd out).
Proof. apply in_sync_preserved. Qed.

(** A call that is answered from the dict leaves everything as it is. *)
Lemma httpx_mock_cache_impl_hit (data_dir : string) (request : Request)
    (name : string) (cache : gmap string Json) (file_stem : string)
    (h : Host Json) (saved : Json) :
  cache !! name = Some saved ->
  json_truthy C saved = true ->
  is_Some (files h !! snapshot_path data_dir file_stem)
  \/ update_snapshots h = false ->
  httpx_mock_cache_impl C data_dir request name cache file_stem h
    = (inr {| status_code := 200; json := saved |}, cache, h).
Proof.
  intros Hname Htrue Hfile. unfold_impl. simpl.
  assert (Hne : cache <> ∅) by (intros ->; by rewrite lookup_empty in Hname).
  assert (Hh : match files h !! snapshot_path data_dir file_stem with
               | Some _ => h
               | None => if update_snapshots h
                         then write_file (snapshot_path data_dir file_stem) ∅ h
                         else h
               end = h).
  { destruct (files h !! snapshot_path data_dir file_stem) eqn:Hf; [done|].
    destruct Hfile as [[? ?]| ->]; done. }
  rewrite Hh, (bool_decide_eq_false_2 _ Hne), Hname, Htrue. done.
Qed.

(** What a response tells about the state the call leaves behind. *)
Lemma httpx_mock_cache_impl_response (data_dir : string) (request : Request)
    (name : string) (cache cache' : gmap string Json) (file_stem : string)
    (h h' : Host Json) (response : Response Json) :
  httpx_mock_cache_impl C data_dir request name cache file_stem h
    = (inr response, cache', h') ->
  response = {| status_code := 200; json := json response |}
  /\ cache' !! name = Some (json response)
  /\ (is_Some (files h' !! snapshot_path data_dir file_stem)
      \/ update_snapshots h' = false).
Proof.
  unfold_impl. simpl.
  split_impl h; intros Hout; simplify_eq/=;
    rewrite ?lookup_insert_eq; eauto.
Qed.

(** X14: after [httpx_mock_cache_impl] has returned a response with a
    truthy value, the same lookup on the resulting dict and machine
    returns the same response and changes nothing: no request, no write. *)
Theorem answered_again_without_effects (data_dir : string)
    (request request' : Request) (name : string) (cache cache' : gmap string Json)
    (file_stem : string) (h h' : Host Json) (response : Response Json) :
  httpx_mock_cache_impl C data_dir request name cache file_stem h
    = (inr response, cache', h') ->
  json_truthy C (json response) = true ->
  httpx_mock_cache_impl C data_dir request' name cache' file_stem h'
    = (inr response, cache', h').
Proof.
  intros Hfirst Htrue.
  destruct (httpx_mock_cache_impl_response _ _ _ _ _ _ _ _ _ Hfirst)
    as (Hresp & Hname & Hfile).
  destruct response as [sc saved]. simpl in *. injection Hresp as ->.
  by apply httpx_mock_cache_impl_hit.
Qed.

(** X15: what [httpx_mock_cache_impl] answered, from a dict in step with
    its file, is what a new mock (empty dict) replays without
    [UPDATE_SNAPSHOTS] from the same snapshot file, if the value is
    truthy; a falsy recorded value is reported as a missing mock. *)
Theorem recorded_answer_is_replayed (data_dir : string)
    (request request' : Request) (name : string)
    (cache cache' : gmap string Json) (file_stem : string)
    (h h' h2 : Host Json) (response : Response Json) :
  in_sync cache (snapshot_path data_dir file_stem) h ->
  httpx_mock_cache_impl C data_dir request name cache file_stem h
    = (inr response, cache', h') ->
  files h2 !! snapshot_path data_dir file_stem
    = files h' !! snapshot_path data_dir file_stem ->
  update_snapshots h2 = false ->
  httpx_mock_cache_impl C data_dir request' name ∅ file_stem h2
    = (if json_truthy C (json response) then inr response
       else inl (FileNotFoundError
                   (missing_mock name (snapshot_path data_dir file_stem))),
       cache', h2).
Proof.
  intros Hsync Hfirst Hfiles Hmode.
  pose proof (in_sync_preserved data_dir request name cache file_stem h Hsync)
    as Hsync'.
  rewrite Hfirst in Hsync'. simpl in Hsync'.
  destruct (httpx_mock_cache_impl_response _ _ _ _ _ _ _ _ _ Hfirst)
    as (Hresp & Hname & _).
  assert (Hfile : files h2 !! snapshot_path data_dir file_stem = Some cache').
  { rewrite Hfiles. destruct Hsync' as [->|Hs]; [|done].
    by rewrite lookup_empty in Hname. }
  destruct response as [sc saved]. simpl in *. injection Hresp as ->.
  unfold_impl. simpl. rewrite Hfile. simpl.
  case_bool_decide; [|done]. rewrite Hfile.
  rewrite (right_id_L ∅ (∪)), Hname, Hmode.
  by destruct (json_truthy C saved).
Qed.

(** X16: once the dict is not empty the snapshot file is not read any
    more: without [UPDATE_SNAPSHOTS] the outcome is the same on any two
    machines, whatever their files. *)
Theorem loaded_cache_hides_the_file (data_dir : string)
    (request request' : Request) (name : string) (cache : gmap string Json)
    (file_stem : string) (h h' : Host Json) :
  cache <> ∅ ->
  update_snapshots h = false ->
  update_snapshots h' = false ->
  fst (httpx_mock_cache_impl C data_dir request name cache file_stem h)
    = fst (httpx_mock_cache_impl C data_dir request' name cache file_stem h').
Proof.
  intros Hne Hmode Hmode'. unfold_impl. simpl.
  rewrite (bool_decide_eq_false_2 _ Hne).
  destruct (files h !! snapshot_path data_dir file_stem);
    destruct (files h' !! snapshot_path data_dir file_stem);
    rewrite ?Hmode, ?Hmode'; simpl; rewrite ?Hmode, ?Hmode';
    destruct (cache !! name) as [saved|]; simpl;
    try destruct (json_truthy C saved); done.
Qed.

(** X17: [httpx_mock_simple] leaves the dict and the snapshot file of the
    JSON metadata alone, and [httpx_mock_json_metadata] those of the simple
    index. *)
Theorem simple_and_json_metadata_are_separate (self : HttpMock)
    (request : Request) (name version : string) (h : Host Json) :
  (let out := httpx_mock_simple C self request name h in
   cache_json_metadata (snd (fst out)) = cache_json_metadata self
   /\ data_dir (snd (fst out)) = data_dir self
   /\ files (snd out) !! snapshot_path (data_dir self) "json_metadata"
      = files h !! snapshot_path (data_dir self) "json_metadata")
  /\ (let out := httpx_mock_json_metadata C self request name version h in
      cache_simple (snd (fst out)) = cache_simple self
      /\ data_dir (snd (fst out)) = data_dir self
      /\ files (snd out) !! snapshot_path (data_dir self) "simple"
         = files h !! snapshot_path (data_dir self) "simple").
Proof.
  split.
  - unfold httpx_mock_simple.
    pose proof (httpx_mock_cache_impl_frame (data_dir self) request name
                  (cache_simple self) "simple" h) as [_ Hframe].
    destruct (httpx_mock_cache_impl C _ _ _ _ _ _) as [[r cache] h'].
    simpl in *. split; [done|]. split; [done|].
    apply Hframe. intros H. by apply (snapshot_paths_differ (data_dir self)).
  - unfold httpx_mock_json_metadata.
    pose proof (httpx_mock_cache_impl_frame (data_dir self) request
                  (name +:+ " " +:+ version)
                  (cache_json_metadata self) "json_metadata" h) as [_ Hframe].
    destruct (httpx_mock_cache_impl C _ _ _ _ _ _) as [[r cache] h'].
    simpl in *. split; [done|]. split; [done|].
    apply Hframe. apply snapshot_paths_differ.
Qed.

End MockFacts.

Section SdistMockFacts.
Context {Json Metadata : Type}.
Variable C : Collaborators Json Metadata.
Variable W : World Json Metadata.

Lemma disabled_cache_never_hits (entries : gmap (string * string) string)
    (w : bool) (file : File) :
  cache_hit {| read := false; write := w; entries := entries |} file = None.
Proof. reflexivity. Qed.

(** X18: with [UPDATE_SNAPSHOTS] set, [mock_build_sdist] runs the build
    driver exactly once per call, whatever cache it was handed and whatever
    the snapshot holds, and a failure of [build_sdist] comes out unchanged
    with the mock and the files untouched. *)
Theorem record_mode_always_rebuilds (self : SdistMetadataMock (Json := Json))
    (file : File) (_cache : Cache) (h : Host Json) (t : list Event) :
  update_snapshots h = true ->
  let out := mock_build_sdist C W self file _cache h t in
  exists t' : list Event,
    snd out = t ++ t'
    /\ driver_runs t' = 1%nat
    /\ forall e : exn,
         fst (build_sdist W file
                {| cache := {| read := false; write := false;
                               entries := default_cache_entries C |};
                   trace := t |}) = Raise e ->
         out = (Raise e, self, h, t ++ t').
Proof.
  intros Hmode. unfold mock_build_sdist. rewrite Hmode.
  destruct (build_sdist_driver_runs W file
              {| cache := {| read := false; write := false;
                             entries := default_cache_entries C |};
                 trace := t |}) as (t' & Ht' & Hruns).
  simpl in Hruns, Ht'.
  destruct (build_sdist W file _) as [r [c' tr']]. simpl in Ht'. subst tr'.
  exists t'. destruct r as [metadata|e]; simpl.
  - destruct (orjson_loads C (to_json_str C metadata)); simpl;
      (split; [done|]); (split; [done|]); done.
  - split; [done|]. split; [done|]. by intros e' [= ->].
Qed.

(** X19: a record that [mock_build_sdist] returned with
    [UPDATE_SNAPSHOTS] set is returned again, with no effect at all, by a
    mock constructed without [UPDATE_SNAPSHOTS] on a machine holding the
    data file it wrote. *)
Theorem recorded_sdist_metadata_is_replayed
    (self self' : SdistMetadataMock (Json := Json)) (file : File)
    (c c2 : Cache) (h h' h2 : Host Json) (t t' t2 : list Event)
    (metadata : Metadata) :
  update_snapshots h = true ->
  datafile self = sdist_datafile (test_name self) (rootpath self) ->
  mock_build_sdist C W self file c h t = (Ok metadata, self', h', t') ->
  files h2 !! datafile self = files h' !! datafile self ->
  update_snapshots h2 = false ->
  exists self2 : SdistMetadataMock,
    SdistMetadataMock_init (test_name self) (rootpath self) h2 = inr self2
    /\ data self2 = data self'
    /\ mock_build_sdist C W self2 file c2 h2 t2
       = (Ok metadata, self2, h2, t2).
Proof.
  intros Hmode Hdatafile Hrecord Hfiles Hreplay.
  unfold mock_build_sdist in Hrecord. rewrite Hmode in Hrecord.
  destruct (build_sdist W file _) as [[built|e] s']; [|done].
  destruct (orjson_loads C (to_json_str C built)) as [recorded|e]; [|done].
  injection Hrecord as Hanswer <- <- <-.
  assert (Hfile : files h2 !! sdist_datafile (test_name self) (rootpath self)
                  = Some (<[filename file := recorded]> (data self))).
  { rewrite <- Hdatafile, Hfiles. simpl. apply lookup_insert_eq. }
  eexists. split; [|split].
  - unfold SdistMetadataMock_init. rewrite Hfile. reflexivity.
  - reflexivity.
  - unfold mock_build_sdist. rewrite Hreplay. f_equal. f_equal. f_equal.
    exact Hanswer.
Qed.

End SdistMockFacts.

(** ** Closed instances of the further facts *)

(** The build of [broken-1.0.tar.gz] raises, and the directory is
    released all the same. *)
Lemma tempdir_released_on_every_path_witness :
  exists rest : list Event,
    let inner := trace (snd (build_sdist_impl Demo.world
                               (Demo.file "broken-1.0") (mkdtemp Demo.world)
                               {| cache := cache DemoTest.fresh;
                                  trace := [] |})) in
    trace (snd (build_sdist Demo.world (Demo.file "broken-1.0")
                            DemoTest.fresh))
      = trace DemoTest.fresh ++ TempdirCreate (mkdtemp Demo.world) :: inner
          ++ TempdirCleanup (mkdtemp Demo.world) :: rest
    /\ List.filter is_tempdir inner = []
    /\ List.filter is_tempdir rest = []
    /\ List.filter is_http_get rest = []
    /\ List.filter is_unpack rest = []
    /\ List.filter is_run rest = [].
Proof.
  apply (proj1 (tempdir_released_on_every_path Demo.world
                  (Demo.file "broken-1.0") DemoTest.fresh)).
  reflexivity.
Defined.

(** [flat-1.0.tar.gz] fails to build with [ValueError]. *)
Lemma failed_build_stores_nothing_witness :
  fst (build_sdist Demo.world (Demo.file "flat-1.0") DemoTest.fresh)
    = Raise ValueError
  /\ cache (snd (build_sdist Demo.world (Demo.file "flat-1.0") DemoTest.fresh))
     = cache DemoTest.fresh
  /\ exists t : list Event,
       trace (snd (build_sdist Demo.world (Demo.file "flat-1.0")
                     (snd (build_sdist Demo.world (Demo.file "flat-1.0")
                             DemoTest.fresh))))
         = trace (snd (build_sdist Demo.world (Demo.file "flat-1.0")
                         DemoTest.fresh)) ++ t
       /\ driver_runs t = 1%nat.
Proof.
  apply (failed_build_stores_nothing Demo.world (Demo.file "flat-1.0")
           DemoTest.fresh ValueError);
    vm_compute; reflexivity.
Defined.

(** The record built for [corrupt-1.0.tar.gz] does not parse, and the
    second call fails from the cache. *)
Lemma unparseable_record_is_cached_witness :
  cache_hit (cache (snd (build_sdist Demo.world (Demo.file "corrupt-1.0")
                           DemoTest.fresh)))
            (Demo.file "corrupt-1.0")
    = Some "{not a record}".
Proof.
  apply (unparseable_record_is_cached Demo.world (Demo.file "corrupt-1.0")
           DemoTest.fresh "not a record" (Exception "invalid metadata"));
    try (vm_compute; reflexivity).
  cbv [json_dumps Demo.world String.append]. discriminate.
Defined.

Lemma download_or_unpack_error_stops_the_build_witness :
  fst (build_sdist_impl DemoTest.world (Demo.file "offline-1.0")
                        "/tmp/tmpsdist" DemoTest.fresh)
    = Raise (Exception "ConnectError")
  /\ fst (build_sdist_impl DemoTest.world (Demo.file "notanarchive-1.0")
                           "/tmp/tmpsdist" DemoTest.fresh)
     = Raise (Exception "ReadError").
Proof.
  split.
  - rewrite (proj1 (download_or_unpack_error_stops_the_build DemoTest.world
                      (Demo.file "offline-1.0") "/tmp/tmpsdist" DemoTest.fresh
                      (Exception "ConnectError")));
      [reflexivity | vm_compute; reflexivity].
  - rewrite (proj2 (download_or_unpack_error_stops_the_build DemoTest.world
                      (Demo.file "notanarchive-1.0") "/tmp/tmpsdist"
                      DemoTest.fresh (Exception "ReadError")));
      [reflexivity | vm_compute; reflexivity | vm_compute; reflexivity].
Defined.

(** The front end of [nobackend-1.0] raises an exception of its own. *)
Lemma only_subprocess_failures_are_wrapped_witness :
  fst (build_sdist_impl DemoTest.world (Demo.file "nobackend-1.0")
                        "/tmp/tmpsdist" DemoTest.fresh)
    = Raise (Exception "BuildException").
Proof.
  apply (only_subprocess_failures_are_wrapped DemoTest.world
           (Demo.file "nobackend-1.0") "/tmp/tmpsdist" "nobackend-1.0"
           DemoTest.fresh (Exception "BuildException"));
    vm_compute; reflexivity.
Defined.

(** The hooks of [noisy-1.0] write to stderr and succeed. *)
Lemma stderr_is_logged_after_a_successful_build_witness :
  List.filter is_warning
    (trace (snd (build_sdist_impl DemoTest.world (Demo.file "noisy-1.0")
                   "/tmp/tmpsdist"
                   {| cache := cache DemoTest.fresh; trace := [] |})))
  = [Log WARNING
       ("Messages from building noisy-1.0.tar.gz:" +:+ nl
          +:+ "--- stderr:" +:+ nl
          +:+ "warning: setup.py is deprecated;  warning: setup.py is deprecated;"
          +:+ nl +:+ "---" +:+ nl)].
Proof.
  rewrite (proj1 (stderr_is_logged_after_a_successful_build DemoTest.world
                    (Demo.file "noisy-1.0") "/tmp/tmpsdist" "noisy-1.0"
                    DemoTest.fresh eq_refl eq_refl)
             ["demo-1.0.dist-info"; "build.log"]);
    vm_compute; reflexivity.
Defined.

(** The same file name served from another URL. *)
Lemma same_filename_shares_the_entry_witness :
  exists t : list Event,
    build_sdist Demo.world
      {| filename := "demo-1.0.tar.gz";
         url := "https://mirror.example.org/demo-1.0.tar.gz" |}
      (snd (build_sdist Demo.world (Demo.file "demo-1.0") DemoTest.fresh))
      = (Ok "{name: demo, version: 1.0}",
         {| cache := cache (snd (build_sdist Demo.world (Demo.file "demo-1.0")
                                   DemoTest.fresh));
            trace := trace (snd (build_sdist Demo.world (Demo.file "demo-1.0")
                                   DemoTest.fresh)) ++ t |})
    /\ driver_runs t = 0%nat.
Proof.
  apply (same_filename_shares_the_entry Demo.world (Demo.file "demo-1.0")
           {| filename := "demo-1.0.tar.gz";
              url := "https://mirror.example.org/demo-1.0.tar.gz" |}
           DemoTest.fresh).
  - reflexivity.
  - reflexivity.
  - reflexivity.
  - intros j. cbv [json_dumps Demo.world String.append]. discriminate.
  - vm_compute. reflexivity.
Defined.

(** An empty entry under the key of [demo-1.0.tar.gz]. *)
Lemma empty_cached_value_is_rebuilt_witness :
  cache_hit {| read := true; write := true;
               entries := {[ ("sdist_build_metadata",
                              "demo-1.0.tar.gz.METADATA.json") := "" ]} |}
            (Demo.file "demo-1.0") = None
  /\ entries (cache (snd (build_sdist Demo.world (Demo.file "demo-1.0")
                (Demo.start
                   {| read := true; write := true;
                      entries := {[ ("sdist_build_metadata",
                                     "demo-1.0.tar.gz.METADATA.json")
                                      := "" ]} |}))))
       !! ("sdist_build_metadata", cache_key (Demo.file "demo-1.0"))
     = Some "{name: demo, version: 1.0}".
Proof.
  destruct (empty_cached_value_is_rebuilt Demo.world (Demo.file "demo-1.0")
              (Demo.start
                 {| read := true; write := true;
                    entries := {[ ("sdist_build_metadata",
                                   "demo-1.0.tar.gz.METADATA.json")
                                    := "" ]} |}))
    as (Hmiss & _ & Hstored); [vm_compute; reflexivity|].
  split; [exact Hmiss|].
  apply (Hstored "name: demo, version: 1.0"); vm_compute; reflexivity.
Defined.

Lemma runner_env_keeps_inherited_variables_witness :
  runner_env Demo.world
    (Some {[ "PEP517_BUILD_BACKEND" := "setuptools.build_meta" ]}) !! "PATH"
  = os_environ Demo.world !! "PATH".
Proof.
  apply (proj1 (proj2 (runner_env_keeps_inherited_variables Demo.world
                         (Some {[ "PEP517_BUILD_BACKEND"
                                    := "setuptools.build_meta" ]})))).
  vm_compute. reflexivity.
Defined.

(** Replaying [numpy] from a recorded snapshot. *)
Lemma replay_reads_only_witness :
  let out := httpx_mock_cache_impl DemoTest.collaborators DemoTest.pandas_dir
               (DemoTest.request "https://pypi.org/simple/numpy/") "numpy" ∅
               "simple" (DemoTest.host false DemoTest.recorded) in
  snd out = DemoTest.host false DemoTest.recorded
  /\ (forall e : exn, fst (fst out) <> inl (Upstream e))
  /\ (forall response : Response string,
        fst (fst out) = inr response ->
        status_code response = 200
        /\ snd (fst out) !! "numpy" = Some (json response)
        /\ json_truthy DemoTest.collaborators (json response) = true).
Proof.
  apply (replay_reads_only DemoTest.collaborators DemoTest.pandas_dir
           (DemoTest.request "https://pypi.org/simple/numpy/") "numpy" ∅
           "simple" (DemoTest.host false DemoTest.recorded)).
  reflexivity.
Defined.

(** Recording [six] on a machine without snapshots. *)
Lemma cache_mirrors_snapshot_witness :
  let out := httpx_mock_cache_impl DemoTest.collaborators DemoTest.pandas_dir
               (DemoTest.request "https://pypi.org/simple/six/") "six" ∅
               "simple" (DemoTest.host true ∅) in
  in_sync (snd (fst out)) (snapshot_path DemoTest.pandas_dir "simple")
          (snd out).
Proof.
  apply (cache_mirrors_snapshot DemoTest.collaborators DemoTest.pandas_dir
           (DemoTest.request "https://pypi.org/simple/six/") "six" ∅
           "simple" (DemoTest.host true ∅)).
  left. reflexivity.
Defined.

Lemma answered_again_without_effects_witness :
  let out := httpx_mock_cache_impl DemoTest.collaborators DemoTest.pandas_dir
               (DemoTest.request "https://pypi.org/simple/six/") "six" ∅
               "simple" (DemoTest.host true ∅) in
  httpx_mock_cache_impl DemoTest.collaborators DemoTest.pandas_dir
    (DemoTest.request "https://pypi.org/simple/six/") "six" (snd (fst out))
    "simple" (snd out)
  = (inr {| status_code := 200;
            json := "page of https://pypi.org/simple/six/" |},
     snd (fst out), snd out).
Proof.
  eapply (answered_again_without_effects DemoTest.collaborators
           DemoTest.pandas_dir
           (DemoTest.request "https://pypi.org/simple/six/")
           (DemoTest.request "https://pypi.org/simple/six/") "six" ∅ _
           "simple" (DemoTest.host true ∅));
    vm_compute; reflexivity.
Defined.

(** What was recorded for [six] is replayed by a new mock on a machine
    with the same snapshot file. *)
Lemma recorded_answer_is_replayed_witness :
  let out := httpx_mock_cache_impl DemoTest.collaborators DemoTest.pandas_dir
               (DemoTest.request "https://pypi.org/simple/six/") "six" ∅
               "simple" (DemoTest.host true ∅) in
  httpx_mock_cache_impl DemoTest.collaborators DemoTest.pandas_dir
    (DemoTest.request "https://pypi.org/simple/six/") "six" ∅ "simple"
    (DemoTest.host false (files (snd out)))
  = (inr {| status_code := 200;
            json := "page of https://pypi.org/simple/six/" |},
     snd (fst out), DemoTest.host false (files (snd out))).
Proof.
  eapply (recorded_answer_is_replayed DemoTest.collaborators
           DemoTest.pandas_dir
           (DemoTest.request "https://pypi.org/simple/six/")
           (DemoTest.request "https://pypi.org/simple/six/") "six" ∅ _
           "simple" (DemoTest.host true ∅) _ _
           {| status_code := 200;
              json := "page of https://pypi.org/simple/six/" |}).
  - left. reflexivity.
  - vm_compute. reflexivity.
  - reflexivity.
  - reflexivity.
Defined.

(** A loaded dict answers the same whether or not the file is there. *)
Lemma loaded_cache_hides_the_file_witness :
  fst (httpx_mock_cache_impl DemoTest.collaborators DemoTest.pandas_dir
         (DemoTest.request "https://pypi.org/simple/numpy/") "numpy"
         {[ "numpy" := "page of numpy" ]} "simple"
         (DemoTest.host false DemoTest.recorded))
  = fst (httpx_mock_cache_impl DemoTest.collaborators DemoTest.pandas_dir
           (DemoTest.request "https://pypi.org/simple/numpy/") "numpy"
           {[ "numpy" := "page of numpy" ]} "simple"
           (DemoTest.host false ∅)).
Proof.
  apply (loaded_cache_hides_the_file DemoTest.collaborators
           DemoTest.pandas_dir
           (DemoTest.request "https://pypi.org/simple/numpy/")
           (DemoTest.request "https://pypi.org/simple/numpy/") "numpy"
           {[ "numpy" := "page of numpy" ]} "simple"
           (DemoTest.host false DemoTest.recorded) (DemoTest.host false ∅));
    [apply insert_non_empty | reflexivity | reflexivity].
Defined.

(** Recording the metadata of [demo-1.0.tar.gz], although the cache passed
    in is readable and writable. *)
Lemma record_mode_always_rebuilds_witness :
  exists t' : list Event,
    snd (mock_build_sdist DemoTest.collaborators Demo.world
           DemoTest.sdist_mock (Demo.file "demo-1.0")
           (Demo.empty_cache true true) (DemoTest.host true ∅) [])
    = [] ++ t'
    /\ driver_runs t' = 1%nat.
Proof.
  destruct (record_mode_always_rebuilds DemoTest.collaborators Demo.world
              DemoTest.sdist_mock (Demo.file "demo-1.0")
              (Demo.empty_cache true true) (DemoTest.host true ∅) []
              eq_refl) as (t' & Htrace & Hruns & _).
  exists t'. split; [exact Htrace | exact Hruns].
Defined.

Lemma recorded_sdist_metadata_is_replayed_witness :
  let out := mock_build_sdist DemoTest.collaborators Demo.world
               DemoTest.sdist_mock (Demo.file "demo-1.0")
               (Demo.empty_cache true true) (DemoTest.host true ∅) [] in
  let h2 := DemoTest.host false (files (snd (fst out))) in
  exists self2 : SdistMetadataMock,
    SdistMetadataMock_init "meine_stadt_transparent" "/repo" h2 = inr self2
    /\ data self2 = data (snd (fst (fst out)))
    /\ mock_build_sdist DemoTest.collaborators Demo.world self2
         (Demo.file "demo-1.0") (Demo.empty_cache false false) h2 []
       = (Ok "{name: demo, version: 1.0}", self2, h2, []).
Proof.
  eapply (recorded_sdist_metadata_is_replayed DemoTest.collaborators
           Demo.world DemoTest.sdist_mock _ (Demo.file "demo-1.0")
           (Demo.empty_cache true true) (Demo.empty_cache false false)
           (DemoTest.host true ∅) _ _ [] _ []);
    [reflexivity | reflexivity | vm_compute; reflexivity
    | reflexivity | reflexivity].
Defined.
